(** * Maintenance work-order system: a shallow embedding of [main.py]

    The request handlers of [main.py] are embedded as functions in a small
    state-and-exception monad over a file system that maps store paths to
    worksheets.  The embedding follows the source handler by handler.

    Modelling boundaries (libraries that are not part of the repository):
    - a worksheet of the spreadsheet library is the grid of rows 1..max_row,
      every row holding the values of the cells that exist in it; iterating
      rows pads each row with [None] up to [max_column], as the library does;
    - binding a value to a cell checks it as the library does: a string is
      cut at 32767 characters and refused when it holds a control character
      that a worksheet cannot hold, a JSON array or object is refused;
    - a file holds the grid as the library reads it back: a cell without a
      value or with the empty string is not in the file, a float with an
      integral value is read back as an integer, and the two days at the
      origin of the serial dates are read back as times of day ([stored]);
      cells carry no style, numbers are within sixteen significant digits,
      and a carriage return is kept; the store files are written by the
      library only, so a theorem about the rows of a store takes the sheet
      as the library reads it ([as_loaded]);
    - a path is what [pathlib] makes of its segments; a file is named by one
      path only (no links, no [..] leading back into a directory), a workbook
      is written when it exists already or its directory does, and a store
      path names a workbook or nothing;
    - the property code of a listing or of a report is one segment of the
      URL path, so it holds no [/], and the reports directory is the one the
      module creates when it starts;
    - cell and JSON values are [None], booleans, integers, floats (carried by
      their printed form), strings, datetimes, times of day, and JSON arrays
      and objects; characters are the code points below 256;
    - the width of a rendered string is the sum of its glyph widths in
      thousandths of the font size, for a glyph table taken as a parameter;
    - [HTTPException] is an ordinary exception class, as in the web framework,
      so a handler-wide [except Exception] clause catches it. *)

From Stdlib Require Import ZArith Ascii String DecimalString List.
From stdpp Require Import base option list strings gmap.

Local Open Scope Z_scope.

(** ** Python values, strings and dates *)

Module Py.

(** A [datetime.datetime] value (microseconds are always zero here). *)
Record datetime := mk_datetime {
  year : Z; month : Z; day : Z; hour : Z; minute : Z; second : Z
}.

(** The objects that a request body or a cell can hold.  [VTime] is a
    [datetime.time]; [VList] and [VDict] are a JSON array and a JSON object
    (its entries in order). *)
#[warnings="-register-all"] Inductive value :=
| VNone
| VBool (b : bool)
| VInt (n : Z)
| VFloat (printed : string)
| VStr (s : string)
| VDatetime (d : datetime)
| VTime (h m s : Z)
| VList (items : list value)
| VDict (entries : list (string * value)).

Inductive exn :=
| HTTPException (status_code : Z) (detail : string)
| ValueError (msg : string)
| TypeError (msg : string)
| IndexError (msg : string)
| FileNotFoundError (msg : string)
| IllegalCharacterError (msg : string).

(** The outcome of a computation that may raise. *)
Inductive result (A : Type) :=
| Return (a : A)
| Raise (e : exn).
Arguments Return {A} a.
Arguments Raise {A} e.

Definition rbind {A B} (m : result A) (k : A -> result B) : result B :=
  match m with
  | Return a => k a
  | Raise e => Raise e
  end.

Notation "'let*' x ':=' m 'in' k" := (rbind m (fun x => k))
  (at level 10, x name, m at level 100, k at level 200).

(** [x is None] *)
Definition is_None (v : value) : bool :=
  match v with VNone => true | _ => false end.

(** Truth value of an object, as [if v:], [all([...])] and [and] test it. *)
Definition truthy (v : value) : bool :=
  match v with
  | VNone => false
  | VBool b => b
  | VInt n => negb (n =? 0)
  | VFloat r => negb (String.eqb r "0.0" || String.eqb r "-0.0")
  | VStr s => negb (String.eqb s EmptyString)
  | VDatetime _ => true
  | VTime _ _ _ => true
  | VList items => negb (length items =? 0)%nat
  | VDict entries => negb (length entries =? 0)%nat
  end.

(** Decimal digits of an integer, [str(n)]. *)
Definition str_int (n : Z) : string := NilZero.string_of_int (Z.to_int n).

(** [n] printed in at least [w] digits, as [%02d] and [%04d] do ([0 <= n]). *)
Definition zero_pad (w : nat) (n : Z) : string :=
  let s := str_int n in
  string_of_list_ascii (replicate (w - String.length s) "0"%char) +:+ s.

(** [d.strftime("%Y-%m-%d")]: the C library prints the year as it is, in
    fewer than four digits before the year 1000, and the month and the day
    in two digits. *)
Definition strftime_ymd (d : datetime) : string :=
  str_int (year d) +:+ "-" +:+ zero_pad 2 (month d) +:+ "-" +:+ zero_pad 2 (day d).

(** [str(t)] for a time of day. *)
Definition str_time (h m s : Z) : string :=
  zero_pad 2 h +:+ ":" +:+ zero_pad 2 m +:+ ":" +:+ zero_pad 2 s.

(** [str(d)] for a datetime: the ISO form with a space separator, the year
    in four digits. *)
Definition str_datetime (d : datetime) : string :=
  zero_pad 4 (year d) +:+ "-" +:+ zero_pad 2 (month d) +:+ "-" +:+ zero_pad 2 (day d)
    +:+ " " +:+ str_time (hour d) (minute d) (second d).

(** Two hexadecimal digits, as in the escape [\xhh]. *)
Definition hex_digit (n : nat) : ascii :=
  nth n (list_ascii_of_string "0123456789abcdef") "0"%char.

Definition hex2 (c : ascii) : string :=
  let n := nat_of_ascii c in
  String (hex_digit (n / 16)) (String (hex_digit (n mod 16)) EmptyString).

(** [c.isprintable()] on the code points below 256. *)
Definition isprintable (c : ascii) : bool :=
  let n := nat_of_ascii c in
  ((32 <=? n) && (n <=? 126) || (161 <=? n) && negb (n =? 173))%nat.

Definition contains (c : ascii) (s : string) : bool :=
  existsb (Ascii.eqb c) (list_ascii_of_string s).

Definition backslash : ascii := "092"%char.

(** One character of [repr(s)] inside the quotes [q]. *)
Definition repr_char (q c : ascii) : string :=
  if Ascii.eqb c q || Ascii.eqb c backslash then String backslash (String c EmptyString)
  else if Ascii.eqb c "009" then String backslash "t"
  else if Ascii.eqb c "010" then String backslash "n"
  else if Ascii.eqb c "013" then String backslash "r"
  else if isprintable c then String c EmptyString
  else String backslash "x" +:+ hex2 c.

Fixpoint repr_chars (q : ascii) (s : string) : string :=
  match s with
  | EmptyString => EmptyString
  | String c s' => repr_char q c +:+ repr_chars q s'
  end.

(** [repr(s)] for a string: double quotes when the string holds a single
    quote and no double quote, single quotes otherwise. *)
Definition repr_str (s : string) : string :=
  let q := if contains "'" s && negb (contains "034" s) then "034"%char else "'"%char in
  String q (repr_chars q s) +:+ String q EmptyString.

(** [repr(d)] for a datetime without microseconds. *)
Definition repr_datetime (d : datetime) : string :=
  "datetime.datetime(" +:+ str_int (year d) +:+ ", " +:+ str_int (month d) +:+ ", "
    +:+ str_int (day d) +:+ ", " +:+ str_int (hour d) +:+ ", " +:+ str_int (minute d)
    +:+ (if second d =? 0 then EmptyString else ", " +:+ str_int (second d)) +:+ ")".

Definition repr_time (h m s : Z) : string :=
  "datetime.time(" +:+ str_int h +:+ ", " +:+ str_int m
    +:+ (if s =? 0 then EmptyString else ", " +:+ str_int s) +:+ ")".

(** [repr(v)] *)
Fixpoint repr (v : value) : string :=
  match v with
  | VNone => "None"
  | VBool true => "True"
  | VBool false => "False"
  | VInt n => str_int n
  | VFloat r => r
  | VStr s => repr_str s
  | VDatetime d => repr_datetime d
  | VTime h m s => repr_time h m s
  | VList items => "[" +:+ String.concat ", " (List.map repr items) +:+ "]"
  | VDict entries =>
      "{" +:+ String.concat ", "
                (List.map (fun kv => match kv with
                                     | (k, x) => repr_str k +:+ ": " +:+ repr x
                                     end) entries) +:+ "}"
  end.

(** [str(v)], which is also what an f-string makes of [v]. *)
Definition str (v : value) : string :=
  match v with
  | VStr s => s
  | VDatetime d => str_datetime d
  | VTime h m s => str_time h m s
  | _ => repr v
  end.

(** [s == v] for a string [s]: only a string equals a string. *)
Definition str_eq (s : string) (v : value) : bool :=
  match v with
  | VStr t => String.eqb s t
  | _ => false
  end.

(** [str(e)] for an exception; an [HTTPException] prints its status code and
    its detail. *)
Definition str_exn (e : exn) : string :=
  match e with
  | HTTPException c d => str_int c +:+ ": " +:+ d
  | ValueError m | TypeError m | IndexError m | FileNotFoundError m
  | IllegalCharacterError m => m
  end.

(** *** Whitespace, [strip] and [split] *)

(** [c.isspace()] on the code points below 256. *)
Definition isspace (c : ascii) : bool :=
  let n := nat_of_ascii c in
  ((9 <=? n) && (n <=? 13) || (28 <=? n) && (n <=? 32)
   || (n =? 133) || (n =? 160))%nat.

Fixpoint lstrip (s : string) : string :=
  match s with
  | EmptyString => EmptyString
  | String c s' => if isspace c then lstrip s' else s
  end.

Fixpoint rstrip (s : string) : string :=
  match s with
  | EmptyString => EmptyString
  | String c s' =>
      match rstrip s' with
      | EmptyString => if isspace c then EmptyString else String c EmptyString
      | r => String c r
      end
  end.

(** [s.strip()] *)
Definition strip (s : string) : string := rstrip (lstrip s).

(** [s.split(sep)] for a one-character separator: never an empty list. *)
Fixpoint split_on (sep : ascii) (s : string) : list string :=
  match s with
  | EmptyString => [EmptyString]
  | String c s' =>
      if Ascii.eqb c sep then EmptyString :: split_on sep s'
      else match split_on sep s' with
           | w :: ws => String c w :: ws
           | [] => [String c EmptyString]
           end
  end.

(** A word in progress goes in front of the finished ones unless it is empty. *)
Definition push_word (w : string) (ws : list string) : list string :=
  match w with
  | EmptyString => ws
  | _ => w :: ws
  end.

(** The word that starts at the head of [s] (empty when [s] starts with
    whitespace), and the words after it. *)
Fixpoint split_go (s : string) : string * list string :=
  match s with
  | EmptyString => (EmptyString, [])
  | String c s' =>
      let '(w, ws) := split_go s' in
      if isspace c then (EmptyString, push_word w ws) else (String c w, ws)
  end.

(** [s.split()]: the maximal runs of non-whitespace characters. *)
Definition split (s : string) : list string :=
  let '(w, ws) := split_go s in push_word w ws.

(** [sep.join(l)] *)
Definition join (sep : string) (l : list string) : string := String.concat sep l.

(** *** [datetime.strptime(s, "%Y-%m-%d")] *)

Definition digit (c : ascii) : option Z :=
  let n := Z.of_nat (nat_of_ascii c) in
  if (48 <=? n) && (n <=? 57) then Some (n - 48) else None.

Definition is_leap (y : Z) : bool :=
  (y mod 4 =? 0) && (negb (y mod 100 =? 0) || (y mod 400 =? 0)).

Definition days_in_month (y m : Z) : Z :=
  if m =? 2 then (if is_leap y then 29 else 28)
  else if (m =? 4) || (m =? 6) || (m =? 9) || (m =? 11) then 30
  else 31.

(** The year directive: exactly four digits. *)
Definition parse_year (s : string) : option (Z * string) :=
  match s with
  | String a (String b (String c (String d rest))) =>
      match digit a, digit b, digit c, digit d with
      | Some a, Some b, Some c, Some d => Some (1000 * a + 100 * b + 10 * c + d, rest)
      | _, _, _, _ => None
      end
  | _ => None
  end.

(** A literal character of the format. *)
Definition parse_lit (l : ascii) (s : string) : option string :=
  match s with
  | String c rest => if Ascii.eqb c l then Some rest else None
  | EmptyString => None
  end.

(** The month directive followed by the literal [-]: the alternatives
    [1[0-2]], [0[1-9]], [[1-9]] of the library's pattern, tried in order. *)
Definition parse_month_dash (s : string) : option (Z * string) :=
  let two :=
    match s with
    | String a (String b rest) =>
        match digit a, digit b, parse_lit "-" rest with
        | Some 1, Some b, Some rest' => if b <=? 2 then Some (10 + b, rest') else None
        | Some 0, Some b, Some rest' => if 1 <=? b then Some (b, rest') else None
        | _, _, _ => None
        end
    | _ => None
    end in
  match two with
  | Some r => Some r
  | None =>
      match s with
      | String a rest =>
          match digit a, parse_lit "-" rest with
          | Some a, Some rest' => if 1 <=? a then Some (a, rest') else None
          | _, _ => None
          end
      | EmptyString => None
      end
  end.

(** The day directive at the end of the pattern: the first of [3[01]],
    [[12]\d], [0[1-9]], [[1-9]], [ [1-9]] that matches a prefix. *)
Definition parse_day (s : string) : option (Z * string) :=
  let two :=
    match s with
    | String a (String b rest) =>
        match digit a, digit b with
        | Some 3, Some b => if b <=? 1 then Some (30 + b, rest) else None
        | Some 1, Some b => Some (10 + b, rest)
        | Some 2, Some b => Some (20 + b, rest)
        | Some 0, Some b => if 1 <=? b then Some (b, rest) else None
        | _, _ => None
        end
    | _ => None
    end in
  match two with
  | Some r => Some r
  | None =>
      match s with
      | String a rest =>
          match digit a with
          | Some a => if 1 <=? a then Some (a, rest) else None
          | None =>
              if Ascii.eqb a " " then
                match rest with
                | String b rest' =>
                    match digit b with
                    | Some b => if 1 <=? b then Some (b, rest') else None
                    | None => None
                    end
                | EmptyString => None
                end
              else None
          end
      | EmptyString => None
      end
  end.

(** [datetime.strptime(s, "%Y-%m-%d")]: the pattern must match a prefix, no
    text may remain, and the fields must name a day of the calendar. *)
Definition strptime_ymd (s : string) : result datetime :=
  match parse_year s with
  | None => Raise (ValueError "time data does not match format")
  | Some (y, s1) =>
      match parse_lit "-" s1 with
      | None => Raise (ValueError "time data does not match format")
      | Some s2 =>
          match parse_month_dash s2 with
          | None => Raise (ValueError "time data does not match format")
          | Some (m, s3) =>
              match parse_day s3 with
              | None => Raise (ValueError "time data does not match format")
              | Some (d, EmptyString) =>
                  if y <? 1 then Raise (ValueError "year is out of range")
                  else if days_in_month y m <? d
                       then Raise (ValueError "day is out of range for month")
                       else Return (mk_datetime y m d 0 0 0)
              | Some (_, String _ _) => Raise (ValueError "unconverted data remains")
              end
          end
      end
  end.

(** [datetime.strptime(v, "%Y-%m-%d")] on an arbitrary object. *)
Definition strptime (v : value) : result datetime :=
  match v with
  | VStr s => strptime_ymd s
  | _ => Raise (TypeError "strptime() argument 1 must be str")
  end.

End Py.

Import Py.

(** ** Worksheets of the spreadsheet library *)

Module Openpyxl.

(** The cell grid of the active sheet: row [i] of the sheet is element
    [i - 1], column [j] of a row is element [j - 1]. *)
Abbreviation worksheet := (list (list value)).

(** [sheet.max_column]: 1 on a sheet without cells. *)
Definition max_column (ws : worksheet) : nat := Nat.max 1 (max_list (length <$> ws)).

(** A row as the iteration yields it: one cell per column of the sheet. *)
Definition pad (n : nat) (cells : list value) : list value :=
  cells ++ replicate (n - length cells) VNone.

Fixpoint rows_from (n w : nat) (rows : list (list value)) : list (nat * list value) :=
  match rows with
  | [] => []
  | cells :: rest => (n, pad w cells) :: rows_from (S n) w rest
  end.

(** [sheet.iter_rows(min_row=n)]: each row with its number ([row[0].row]) and
    the values of its cells in columns 1..max_column. *)
Definition iter_rows (min_row : nat) (ws : worksheet) : list (nat * list value) :=
  rows_from min_row (max_column ws) (drop (min_row - 1) ws).

(** [row[i]] on the tuple of cells of a row. *)
Definition getitem (cells : list value) (i : nat) : result value :=
  match cells !! i with
  | Some v => Return v
  | None => Raise (IndexError "tuple index out of range")
  end.

(** The control characters that a worksheet cannot hold: the codes 0 to 8,
    11, 12 and 14 to 31. *)
Definition illegal_character (c : ascii) : bool :=
  let n := nat_of_ascii c in
  ((n <=? 8) || (11 <=? n) && (n <=? 12) || (14 <=? n) && (n <=? 31))%nat.

(** The first [n] characters of a string, [s[:n]]. *)
Fixpoint take_chars (n : N) (s : string) : string :=
  match s with
  | EmptyString => EmptyString
  | String c s' => if (n =? 0)%N then EmptyString else String c (take_chars (N.pred n) s')
  end.

(** The longest string that a cell holds. *)
Definition max_string_length : N := 32767.

(** The check of a string on its way into a cell: it is cut at 32767
    characters, and refused when what is left holds an illegal character. *)
Definition check_string (s : string) : result string :=
  let s' := take_chars max_string_length s in
  if existsb illegal_character (list_ascii_of_string s')
  then Raise (IllegalCharacterError (s' +:+ " cannot be used in worksheets."))
  else Return s'.

(** What a cell holds after [cell.value = v] (and after [Cell(value=v)]):
    a string goes through [check_string], an array or an object cannot be
    converted. *)
Definition bind_value (v : value) : result value :=
  match v with
  | VStr s => let* s' := check_string s in Return (VStr s')
  | VList _ | VDict _ => Raise (ValueError ("Cannot convert " +:+ repr v +:+ " to Excel"))
  | _ => Return v
  end.

(** The cells of a new row, bound from left to right. *)
Fixpoint bind_values (values : list value) : result (list value) :=
  match values with
  | [] => Return []
  | v :: rest =>
      let* c := bind_value v in
      let* cs := bind_values rest in
      Return (c :: cs)
  end.

(** [sheet.append(values)]: a new row below the last one. *)
Definition append (values : list value) (ws : worksheet) : result worksheet :=
  let* cells := bind_values values in
  Return (ws ++ [cells]).

(** [sheet.delete_rows(idx)]: the rows below [idx] move up by one. *)
Definition delete_rows (idx : nat) (ws : worksheet) : worksheet := delete (idx - 1)%nat ws.

(** The grid with [v] in row [r], column [c]; the cell is created when the
    sheet has none there. *)
Definition put_cell (r c : nat) (v : value) (ws : worksheet) : worksheet :=
  alter (fun cells => <[(c - 1)%nat := v]> (pad c cells)) (r - 1)%nat
        (ws ++ replicate (r - length ws) []).

(** Assignment to the value of the cell in row [r], column [c]
    ([cell.value = v], [sheet.cell(row=r, column=c, value=v)]): the value is
    bound, which can raise, and the cell then holds it. *)
Definition set_cell (r c : nat) (v : value) (ws : worksheet) : result worksheet :=
  let* v' := bind_value v in
  Return (put_cell r c v' ws).

(** *** What a saved workbook holds when it is loaded again *)

(** A float is written in sixteen significant digits and a number without
    point or exponent is read as an integer: a float printed as an integer
    followed by [.0] comes back as that integer. *)
Fixpoint all_digits (s : string) : bool :=
  match s with
  | EmptyString => true
  | String c s' => bool_decide (is_Some (digit c)) && all_digits s'
  end.

Fixpoint digits_value (acc : Z) (s : string) : Z :=
  match s with
  | EmptyString => acc
  | String c s' => digits_value (10 * acc + default 0 (digit c)) s'
  end.

(** The integer that a float printed as [-ddd.0] or [ddd.0] stands for. *)
Definition integral_float (printed : string) : option Z :=
  let '(negative, body) :=
    match printed with
    | String "-" rest => (true, rest)
    | _ => (false, printed)
    end in
  let n := String.length body in
  let whole := substring 0 (n - 2) body in
  if (2 <? n)%nat && String.eqb (substring (n - 2) 2 body) ".0" && all_digits whole
  then Some (if negative then - digits_value 0 whole else digits_value 0 whole)
  else None.

(** A cell value as it is read back.  The empty string is not written.  A
    datetime is written as a serial number of days; the serial numbers of
    30 and 31 December 1899 lie below 1 and are read back as times of day. *)
Definition stored_value (v : value) : value :=
  match v with
  | VStr s => if String.eqb s EmptyString then VNone else v
  | VFloat printed =>
      match integral_float printed with
      | Some n => VInt n
      | None => v
      end
  | VDatetime d =>
      if (year d =? 1899) && (month d =? 12) && ((day d =? 30) || (day d =? 31))
      then VTime (hour d) (minute d) (second d)
      else v
  | _ => v
  end.

(** A row without the cells that have no value at its end. *)
Fixpoint drop_empty_end (cells : list value) : list value :=
  match cells with
  | [] => []
  | v :: rest =>
      match drop_empty_end rest with
      | [] => if is_None v then [] else [v]
      | rest' => v :: rest'
      end
  end.

(** A row as it is read back: the cells that have a value. *)
Definition stored_row (cells : list value) : list value :=
  drop_empty_end (stored_value <$> cells).

(** The grid that [load_workbook] reads from a file to which [ws] was saved. *)
Definition stored (ws : worksheet) : worksheet := stored_row <$> ws.

End Openpyxl.

Import Openpyxl.

(** ** The file system and the handler monad *)

Inductive canvas_op :=
| SetFont (font : string) (size : Z)
| DrawString (x y : Z) (text : string)
| DrawLine (x1 y1 x2 y2 : Z)
| ShowPage.

(** The directories (the paths that name one), the workbooks by path (each
    as it is read from its file), the drawn documents by path, and the
    workbook saves made so far, oldest first. *)
Record filesystem := mk_fs {
  dirs : gset string;
  files : gmap string worksheet;
  reports : gmap string (list canvas_op);
  saves : list (string * worksheet)
}.

Definition M (A : Type) : Type := filesystem -> result A * filesystem.

Definition ret {A} (a : A) : M A := fun fs => (Return a, fs).
Definition raise {A} (e : exn) : M A := fun fs => (Raise e, fs).
Definition bind {A B} (m : M A) (k : A -> M B) : M B :=
  fun fs =>
    match m fs with
    | (Return a, fs') => k a fs'
    | (Raise e, fs') => (Raise e, fs')
    end.
Definition lift {A} (m : result A) : M A := fun fs => (m, fs).

(** [try: m  except Exception as e: handler(e)] *)
Definition try_except {A} (m : M A) (handler : exn -> M A) : M A :=
  fun fs =>
    match m fs with
    | (Return a, fs') => (Return a, fs')
    | (Raise e, fs') => handler e fs'
    end.

Notation "'let!' x ':=' m 'in' k" := (bind m (fun x => k))
  (at level 10, x name, m at level 100, k at level 200).
Notation "m ;;! k" := (bind m (fun _ => k))
  (at level 100, k at level 200, right associativity).

(** [file_path.exists()] *)
Definition path_exists (p : string) : M bool :=
  fun fs => (Return (bool_decide (is_Some (files fs !! p))), fs).

(** [openpyxl.load_workbook(file_path)] followed by [wb.active] *)
Definition load_workbook (p : string) : M worksheet :=
  fun fs =>
    match files fs !! p with
    | Some ws => (Return ws, fs)
    | None =>
        (Raise (FileNotFoundError ("[Errno 2] No such file or directory: " +:+ repr_str p)),
         fs)
    end.

(** The directory of a path: what stands before its last [/], the root for
    a file directly under it. *)
Definition dirname (p : string) : string :=
  let d := join "/" (removelast (split_on "/" p)) in
  if String.eqb d EmptyString then "/" else d.

(** A file can be written at [p] when there is one already or the directory
    of [p] exists. *)
Definition writable (p : string) (fs : filesystem) : bool :=
  bool_decide (is_Some (files fs !! p)) || bool_decide (dirname p ∈ dirs fs).

(** [wb.save(file_path)]: the file then holds the grid as it is read back;
    without the directory of the path no file is written. *)
Definition wb_save (p : string) (ws : worksheet) : M unit :=
  fun fs =>
    if writable p fs
    then (Return tt,
          mk_fs (dirs fs) (<[p := stored ws]> (files fs)) (reports fs)
                (saves fs ++ [(p, stored ws)]))
    else (Raise (FileNotFoundError ("[Errno 2] No such file or directory: " +:+ repr_str p)),
          fs).

(** [c.save()] for a canvas opened on path [p], a path in the reports
    directory. *)
Definition canvas_save (p : string) (ops : list canvas_op) : M unit :=
  fun fs => (Return tt, mk_fs (dirs fs) (files fs) (<[p := ops]> (reports fs)) (saves fs)).

(** ** The application: [main.py] *)

Record WorkOrder := mk_WorkOrder {
  property_code : string;
  room_numbers : string;
  work_orders : string;
  completion_date : string
}.

Record RemoveWorkOrder := mk_RemoveWorkOrder {
  rm_property_code : string;
  rm_room_number : string
}.

(** One entry of the list that [get_work_orders] returns. *)
Record work_order_entry := mk_entry {
  e_room_number : string;
  e_work_order : string;
  e_completion_date : string;
  e_status : string;
  e_best_room : string
}.

(** What a handler returns. *)
Inductive payload :=
| Message (status message : string)
| WorkOrdersList (entries : list work_order_entry)
| FileResponse (path media_type content_disposition : string).

(** The body of a JSON request: [data.get(key)] is [None] for a missing key. *)
Abbreviation json_object := (gmap string value).

Definition data_get (data : json_object) (key : string) : value :=
  default VNone (data !! key).

Definition data_get_default (data : json_object) (key : string) (d : value) : value :=
  default d (data !! key).

(** The parts of a path segment as [pathlib] keeps them: the pieces between
    the [/], without the empty ones and the single dots. *)
Definition path_parts (segment : string) : list string :=
  List.filter (fun part => negb (String.eqb part EmptyString || String.eqb part "."))
              (split_on "/" segment).

(** The root of a path segment: none for a relative one, [//] for exactly
    two leading [/], [/] otherwise. *)
Definition path_root (segment : string) : string :=
  match segment with
  | String "/" (String "/" (String "/" _)) => "/"
  | String "/" (String "/" _) => "//"
  | String "/" _ => "/"
  | _ => EmptyString
  end.

(** [Path(directory) / segment], printed, for a one-part relative
    [directory]: an absolute segment replaces the directory. *)
Definition path_join (directory segment : string) : string :=
  if String.eqb (path_root segment) EmptyString
  then join "/" (directory :: path_parts segment)
  else path_root segment +:+ join "/" (path_parts segment).

(** [UPLOAD_DIR / f"{property_code}_work_orders.xlsx"] *)
Definition store_path (property_code : string) : string :=
  path_join "uploads" (property_code +:+ "_work_orders.xlsx").

(** [REPORTS_DIR / f"{property_code}_maintenance_report.pdf"] *)
Definition report_path (property_code : string) : string :=
  path_join "reports" (property_code +:+ "_maintenance_report.pdf").

Definition header_row : list value :=
  [VStr "Room Number"; VStr "Work Order"; VStr "Completion Date"; VStr "Status";
   VStr "Best Room"].

Definition ensure_excel_file (property_code : string) : M string :=
  let file_path := store_path property_code in
  let! present := path_exists file_path in
  (if negb present then
     let! sheet := lift (append header_row []) in
     wb_save file_path sheet
   else ret tt) ;;!
  ret file_path.

Definition get_property_name (property_code : string) : string :=
  if String.eqb property_code "NY198" then "Comfort Inn & Suites"
  else if String.eqb property_code "NY345" then "Quality Inn & Suites"
  else "Unknown Property".

Definition format_cell_date (cell : value) : string :=
  match cell with
  | VDatetime d => strftime_ymd d
  | _ => str cell
  end.

(** *** [create_work_order] *)

(** The scan for an existing work order: the first row below the header whose
    first cell prints as the room number. *)
Fixpoint find_existing_row (rows : list (nat * list value)) (room_number : string)
  : result (option (nat * list value)) :=
  match rows with
  | [] => Return None
  | row :: rest =>
      let* c0 := getitem row.2 0 in
      if String.eqb (str c0) room_number then Return (Some row)
      else find_existing_row rest room_number
  end.

(** The body of the loop over the (room, text) pairs. *)
Definition process_work_order (date : datetime) (sheet : worksheet)
    (item : string * string) : result worksheet :=
  let room_number := item.1 in
  let work_order_text := item.2 in
  let* existing_row := find_existing_row (iter_rows 2 sheet) room_number in
  let created :=
    append [VStr room_number; VStr work_order_text; VDatetime date; VStr "Pending"] sheet in
  match existing_row with
  | Some (r, cells) =>
      if negb (length cells =? 0)%nat then
        let* c1 := getitem cells 1 in
        let new_work_order := str c1 +:+ " / " +:+ work_order_text in
        let* sheet1 := set_cell r 2 (VStr new_work_order) sheet in
        let* _ := getitem cells 2 in
        set_cell r 3 (VDatetime date) sheet1
      else created
  | None => created
  end.

Fixpoint process_work_orders (date : datetime) (sheet : worksheet)
    (pairs : list (string * string)) : result worksheet :=
  match pairs with
  | [] => Return sheet
  | item :: rest =>
      let* sheet' := process_work_order date sheet item in
      process_work_orders date sheet' rest
  end.

(** The handler-wide clause [except Exception as e: raise HTTPException(500, str(e))]. *)
Definition except_Exception {A} (body : M A) : M A :=
  try_except body (fun e => raise (HTTPException 500 (str_exn e))).

Definition create_work_order (work_order : WorkOrder) : M payload :=
  except_Exception (
    let room_numbers_list := strip <$> split_on "," (room_numbers work_order) in
    let work_orders_list := strip <$> split_on "," (work_orders work_order) in
    if negb (length room_numbers_list =? length work_orders_list)%nat then
      raise (HTTPException 400 "Number of rooms and work orders must match")
    else
      let! date :=
        try_except (lift (strptime_ymd (completion_date work_order)))
          (fun e =>
             match e with
             | ValueError _ => raise (HTTPException 400 "Invalid date format. Use YYYY-MM-DD")
             | _ => raise e
             end) in
      let! file_path := ensure_excel_file (property_code work_order) in
      let! sheet := load_workbook file_path in
      let! sheet' :=
        lift (process_work_orders date sheet (zip room_numbers_list work_orders_list)) in
      wb_save file_path sheet' ;;!
      ret (Message "success" "Work orders saved successfully")).

(** *** [remove_work_order] *)

Fixpoint find_row_to_delete (rows : list (nat * list value)) (room_number : string)
  : result (option nat) :=
  match rows with
  | [] => Return None
  | row :: rest =>
      let* c0 := getitem row.2 0 in
      if String.eqb (str c0) room_number then Return (Some row.1)
      else find_row_to_delete rest room_number
  end.

Definition remove_work_order (remove_order : RemoveWorkOrder) : M payload :=
  except_Exception (
    let file_path := store_path (rm_property_code remove_order) in
    let! present := path_exists file_path in
    if negb present then
      raise (HTTPException 404 "No work orders found for this property")
    else
      let! sheet := load_workbook file_path in
      let! row_to_delete :=
        lift (find_row_to_delete (iter_rows 2 sheet) (rm_room_number remove_order)) in
      let not_found :=
        raise (HTTPException 404
                 ("No work order found for room " +:+ rm_room_number remove_order)) in
      match row_to_delete with
      | Some r =>
          if negb (r =? 0)%nat then
            wb_save file_path (delete_rows r sheet) ;;!
            ret (Message "success"
                   ("Work order for room " +:+ rm_room_number remove_order
                      +:+ " removed successfully"))
          else not_found
      | None => not_found
      end).

(** *** [get_work_orders] *)

Fixpoint collect_work_orders (rows : list (nat * list value))
  : result (list work_order_entry) :=
  match rows with
  | [] => Return []
  | row :: rest =>
      let cells := row.2 in
      if forallb (fun c => negb (is_None c)) (take 4 cells) then
        let* c0 := getitem cells 0 in
        let* c1 := getitem cells 1 in
        let* c2 := getitem cells 2 in
        let* c3 := getitem cells 3 in
        let* best :=
          (if (4 <? length cells)%nat then
             let* c4 := getitem cells 4 in
             Return (if truthy c4 then str c4 else "No"%string)
           else Return "No"%string) in
        let* others := collect_work_orders rest in
        Return (mk_entry (str c0) (str c1) (format_cell_date c2) (str c3) best :: others)
      else collect_work_orders rest
  end.

Definition get_work_orders (property_code : string) : M payload :=
  except_Exception (
    let file_path := store_path property_code in
    let! present := path_exists file_path in
    if negb present then ret (WorkOrdersList [])
    else
      let! sheet := load_workbook file_path in
      let! entries := lift (collect_work_orders (iter_rows 2 sheet)) in
      ret (WorkOrdersList entries)).

(** *** [edit_work_order] *)

(** The loop that finds and updates the work order: the sheet after the
    assignments, and the flag [found]. *)
Fixpoint edit_rows (rows : list (nat * list value)) (room_number work_order : value)
    (date : datetime) (sheet : worksheet) : result (bool * worksheet) :=
  match rows with
  | [] => Return (false, sheet)
  | row :: rest =>
      let* c0 := getitem row.2 0 in
      if str_eq (str c0) room_number then
        let* _ := getitem row.2 1 in
        let* sheet1 := set_cell row.1 2 work_order sheet in
        let* _ := getitem row.2 2 in
        let* sheet2 := set_cell row.1 3 (VDatetime date) sheet1 in
        Return (true, sheet2)
      else edit_rows rest room_number work_order date sheet
  end.

Definition edit_work_order (data : json_object) : M payload :=
  except_Exception (
    let property_code := data_get data "property_code" in
    let room_number := data_get data "room_number" in
    let work_order := data_get data "work_order" in
    let completion_date := data_get data "completion_date" in
    if negb (forallb truthy [property_code; room_number; work_order; completion_date]) then
      raise (HTTPException 400 "Missing required fields")
    else
      let! date :=
        try_except (lift (strptime completion_date))
          (fun e =>
             match e with
             | ValueError _ => raise (HTTPException 400 "Invalid date format. Use YYYY-MM-DD")
             | _ => raise e
             end) in
      let file_path := store_path (str property_code) in
      let! present := path_exists file_path in
      if negb present then raise (HTTPException 404 "Property not found")
      else
        let! sheet := load_workbook file_path in
        let! res := lift (edit_rows (iter_rows 2 sheet) room_number work_order date sheet) in
        if negb res.1 then raise (HTTPException 404 "Room not found")
        else
          wb_save file_path res.2 ;;!
          ret (Message "success" "Work order updated successfully")).

(** *** [update_room_status] *)

Fixpoint update_rows (rows : list (nat * list value)) (room_number status best_room : value)
    (sheet : worksheet) : result (bool * worksheet) :=
  match rows with
  | [] => Return (false, sheet)
  | row :: rest =>
      let* c0 := getitem row.2 0 in
      if str_eq (str c0) room_number then
        let* _ := getitem row.2 3 in
        let* sheet1 := set_cell row.1 4 status sheet in
        let* sheet2 :=
          (if (4 <? length row.2)%nat then
             let* _ := getitem row.2 4 in
             set_cell row.1 5 best_room sheet1
           else
             set_cell row.1 5 best_room sheet1) in
        Return (true, sheet2)
      else update_rows rest room_number status best_room sheet
  end.

Definition update_room_status (data : json_object) : M payload :=
  except_Exception (
    let property_code := data_get data "property_code" in
    let room_number := data_get data "room_number" in
    let status := data_get data "status" in
    let best_room := data_get_default data "best_room" (VStr "No") in
    if negb (forallb truthy [property_code; room_number; status]) then
      raise (HTTPException 400 "Missing required fields")
    else
      let file_path := store_path (str property_code) in
      let! present := path_exists file_path in
      if negb present then raise (HTTPException 404 "Property not found")
      else
        let! sheet := load_workbook file_path in
        let! res := lift (update_rows (iter_rows 2 sheet) room_number status best_room sheet) in
        if negb res.1 then raise (HTTPException 404 "Room not found")
        else
          wb_save file_path res.2 ;;!
          ret (Message "success" "Room status updated successfully")).

(** *** [generate_report] *)

Section Report.

(** The glyph widths of the report font (Helvetica), in thousandths of the
    font size; the table belongs to the rendering library. *)
Variable glyph_width : ascii -> Z.

Fixpoint glyph_sum (s : string) : Z :=
  match s with
  | EmptyString => 0
  | String c s' => glyph_width c + glyph_sum s'
  end.

(** [c.stringWidth(text, "Helvetica", size)], in thousandths of a point. *)
Definition stringWidth (text : string) (size : Z) : Z := glyph_sum text * size.

(** The width budget of the work-order column: 230 points. *)
Definition budget : Z := 230 * 1000.

(** The loop over the words: the closed lines and the line in progress. *)
Fixpoint wrap_words (words lines current_line : list string) : list string * list string :=
  match words with
  | [] => (lines, current_line)
  | word :: rest =>
      let appended := current_line ++ [word] in
      if budget <? stringWidth (join " " appended) 10 then
        wrap_words rest (lines ++ [join " " (removelast appended)]) [word]
      else wrap_words rest lines appended
  end.

(** The wrapped lines of a work-order text. *)
Definition wrap_text (work_order_text : string) : list string :=
  let '(lines, current_line) := wrap_words (split work_order_text) [] [] in
  if negb (length current_line =? 0)%nat then lines ++ [join " " current_line] else lines.

(** [landscape(letter)] *)
Definition page_width : Z := 792.
Definition page_height : Z := 612.

Definition col_positions : list Z := [30; 130; 380; 530].
Definition headers : list string := ["Room"; "Work Order"; "Completion Date"; "Status"]%string.

(** The loop that draws the rows: the vertical position and the operations
    drawn so far are threaded through. *)
Fixpoint draw_rows (rows : list (nat * list value)) (y_position : Z) (ops : list canvas_op)
  : result (list canvas_op) :=
  match rows with
  | [] => Return ops
  | row :: rest =>
      let new_page := y_position <? 50 in
      let ops := if new_page then ops ++ [ShowPage; SetFont "Helvetica" 10] else ops in
      let y_position := if new_page then page_height - 50 else y_position in
      let* c0 := getitem row.2 0 in
      let ops := ops ++ [DrawString 30 y_position (str c0)] in
      let* c1 := getitem row.2 1 in
      let lines := wrap_text (str c1) in
      let ops := ops ++ imap (fun i line => DrawString 130 (y_position - Z.of_nat i * 12) line) lines in
      let* c2 := getitem row.2 2 in
      let ops := ops ++ [DrawString 380 y_position (format_cell_date c2)] in
      let* c3 := getitem row.2 3 in
      let ops := ops ++ [DrawString 530 y_position (str c3)] in
      draw_rows rest (y_position - Z.max (Z.of_nat (length lines) * 12) 20) ops
  end.

(** [now] is the printed form of the time of the request. *)
Definition generate_report (now : string) (property_code : string) : M payload :=
  except_Exception (
    let file_path := store_path property_code in
    let! present := path_exists file_path in
    if negb present then
      raise (HTTPException 404 "No work orders found for this property")
    else
      let pdf_path := report_path property_code in
      let property_name := get_property_name property_code in
      let y_position := page_height - 120 in
      let ops :=
        [SetFont "Helvetica-Bold" 18;
         DrawString 30 (page_height - 50) ("Maintenance Report for " +:+ property_name);
         SetFont "Helvetica" 12;
         DrawString 30 (page_height - 70) ("Generated on: " +:+ now);
         DrawLine 30 (page_height - 85) (page_width - 30) (page_height - 85);
         SetFont "Helvetica-Bold" 12]
        ++ zip_with (fun pos header => DrawString pos y_position header) col_positions headers
        ++ [DrawLine 30 (y_position - 15) (page_width - 30) (y_position - 15)] in
      let! sheet := load_workbook file_path in
      let y_position := y_position - 40 in
      let ops := ops ++ [SetFont "Helvetica" 10] in
      let! ops := lift (draw_rows (iter_rows 2 sheet) y_position ops) in
      canvas_save pdf_path ops ;;!
      ret (FileResponse pdf_path "application/pdf"
             ("inline; filename=" +:+ property_code +:+ "_maintenance_report.pdf"))).

End Report.

(** The status code of the response to a request. *)
Definition status_code_of {A} (r : result A) : Z :=
  match r with
  | Return _ => 200
  | Raise (HTTPException c _) => c
  | Raise _ => 500
  end.

(** ** The store as the specification reads it *)

(** The value in column [i + 1] of a stored row; [None] when the row has no
    cell there. *)
Definition cell (cells : list value) (i : nat) : value := default VNone (cells !! i).

(** A stored row is addressed by a room number when its first cell prints as
    that string. *)
Definition room_matches (room_number : string) (cells : list value) : bool :=
  String.eqb (str (cell cells 0)) room_number.

(** The same test against a room number taken from a JSON body. *)
Definition room_matches_json (room_number : value) (cells : list value) : bool :=
  str_eq (str (cell cells 0)) room_number.

(** Position of the first row of [data] addressed by the room number. *)
Fixpoint first_match (matches : list value -> bool) (data : list (list value)) : option nat :=
  match data with
  | [] => None
  | cells :: rest => if matches cells then Some 0%nat else S <$> first_match matches rest
  end.

(** No row of [data] is addressed. *)
Definition misses (matches : list value -> bool) (data : list (list value)) : Prop :=
  Forall (fun cells => matches cells = false) data.

(** A record is listed when its first four fields are all non-null. *)
Definition has_data (cells : list value) : bool :=
  negb (is_None (cell cells 0)) && negb (is_None (cell cells 1))
  && negb (is_None (cell cells 2)) && negb (is_None (cell cells 3)).

(** The listed form of a record; the best-room flag reads "No" when absent. *)
Definition entry_of (cells : list value) : work_order_entry :=
  mk_entry (str (cell cells 0)) (str (cell cells 1)) (format_cell_date (cell cells 2))
           (str (cell cells 3))
           (if truthy (cell cells 4) then str (cell cells 4) else "No"%string).

(** The records below the header that are listed, in file order. *)
Definition listed_entries (ws : worksheet) : list work_order_entry :=
  entry_of <$> List.filter has_data (tail ws).

(** The row that a submit appends for a room without a record. *)
Definition new_row (room_number work_order_text : string) (date : datetime) : list value :=
  [VStr room_number; VStr work_order_text; VDatetime date; VStr "Pending"].

(** The row after one cell was assigned. *)
Definition assign (i : nat) (v : value) (cells : list value) : list value :=
  <[i := v]> (pad (S i) cells).

(** The file system after the workbook at [p] was saved with the grid [ws]. *)
Definition saved (p : string) (ws : worksheet) (fs : filesystem) : filesystem :=
  mk_fs (dirs fs) (<[p := stored ws]> (files fs)) (reports fs) (saves fs ++ [(p, stored ws)]).


(** The answer of a successful submit. *)
Definition saved_message : payload := Message "success" "Work orders saved successfully".

(** The pairs that a request submits. *)
Definition submitted_pairs (wo : WorkOrder) : list (string * string) :=
  zip (strip <$> split_on "," (room_numbers wo)) (strip <$> split_on "," (work_orders wo)).


(** A string that a cell takes as it is: it holds no illegal character and
    at most 32767 characters. *)
Definition legal (s : string) : bool :=
  forallb (fun c => negb (illegal_character c)) (list_ascii_of_string s)
  && (N.of_nat (String.length s) <=? max_string_length)%N.

(** A string that a cell gives back as it was written: a legal string that
    is not empty. *)
Definition kept (s : string) : bool := legal s && negb (String.eqb s EmptyString).


(** A sheet as the library reads it from a file: saving it changes nothing. *)
Definition as_loaded (ws : worksheet) : Prop := stored ws = ws.

(** A property code that names a file of the upload directory itself: it
    holds no [/]. *)
Definition no_slash (code : string) : bool := negb (contains "/" code).

(** A string without whitespace. *)
Fixpoint no_space (s : string) : bool :=
  match s with
  | EmptyString => true
  | String c s' => negb (isspace c) && no_space s'
  end.

(** A word: a non-empty string without whitespace. *)
Definition is_word (w : string) : bool :=
  negb (String.eqb w EmptyString) && no_space w.

(** ** Example stores and requests *)

Definition date_2025_03_01 : datetime := mk_datetime 2025 3 1 0 0 0.
Definition date_2025_04_15 : datetime := mk_datetime 2025 4 15 0 0 0.

Definition sample_store : worksheet :=
  [header_row;
   [VStr "101"; VStr "Fix sink"; VDatetime date_2025_03_01; VStr "Pending"];
   [VStr "102"; VStr "Replace bulb"; VDatetime date_2025_03_01; VStr "Done"; VStr "Yes"]].

(** The directories that the module creates when it starts. *)
Definition project_dirs : gset string := {[ "uploads"; "reports"; "static" ]}%string.

Definition empty_fs : filesystem := mk_fs project_dirs ∅ ∅ [].

Definition sample_fs : filesystem :=
  mk_fs project_dirs {[ store_path "NY198" := sample_store ]} ∅ [].

Definition duplicate_store : worksheet :=
  [header_row;
   [VStr "101"; VStr "Fix sink"; VDatetime date_2025_03_01; VStr "Pending"];
   [VStr "101"; VStr "Replace bulb"; VDatetime date_2025_03_01; VStr "Pending"]].

Definition duplicate_fs : filesystem :=
  mk_fs project_dirs {[ store_path "NY198" := duplicate_store ]} ∅ [].

Definition edit_request : json_object :=
  list_to_map [("property_code"%string, VStr "NY198"); ("room_number"%string, VStr "102");
               ("work_order"%string, VStr "Replace lamp");
               ("completion_date"%string, VStr "2025-04-15")].

(** A store written before the best-room column existed. *)
Definition old_store : worksheet :=
  [[VStr "Room Number"; VStr "Work Order"; VStr "Completion Date"; VStr "Status"];
   [VInt 101; VStr "Fix sink"; VDatetime date_2025_03_01; VStr "Pending"]].

Definition old_fs : filesystem :=
  mk_fs project_dirs {[ store_path "NY345" := old_store ]} ∅ [].

Definition status_request : json_object :=
  list_to_map [("property_code"%string, VStr "NY345"); ("room_number"%string, VStr "101");
               ("status"%string, VStr "Completed"); ("best_room"%string, VStr "Yes")].



Definition row_101 : list value :=
  [VStr "101"; VStr "Fix sink"; VDatetime date_2025_03_01; VStr "Pending"].
Definition row_102 : list value :=
  [VStr "102"; VStr "Replace bulb"; VDatetime date_2025_03_01; VStr "Done"; VStr "Yes"].
Definition row_103 : list value :=
  [VStr "103"; VStr "Paint"; VDatetime date_2025_04_15; VStr "Pending"].

(** A request of three pairs: a new room, then two rooms of the sample store. *)
Definition three_pair_request : WorkOrder :=
  mk_WorkOrder "NY198" "103, 102, 101" "Paint, Check fuse, Tighten tap" "2025-04-15".

(** A text of 32766 characters, one less than the longest that a cell holds,
    and a store with a record that has it. *)
Definition long_cell_text : string :=
  string_of_list_ascii (replicate (Z.to_nat 32766) "a"%char).

Definition row_101_long : list value :=
  [VStr "101"; VStr long_cell_text; VDatetime date_2025_03_01; VStr "Pending"].

Definition long_text_store : worksheet := [header_row; row_101_long].

Definition long_text_fs : filesystem :=
  mk_fs project_dirs {[ store_path "NY198" := long_text_store ]} ∅ [].


(** A text that holds a control character: the code 1 before a word. *)
Definition control_text : string := String "001" "Fix sink".

(** Glyph widths of Helvetica for the printable ASCII characters, in
    thousandths of the font size (the font metrics of the rendering library);
    the examples below use no other character. *)
Definition helvetica (c : ascii) : Z :=
  nth (nat_of_ascii c - 32)
    [278; 278; 355; 556; 556; 889; 667; 191; 333; 333; 389; 584; 278; 333; 278; 278;
     556; 556; 556; 556; 556; 556; 556; 556; 556; 556; 278; 278; 584; 584; 584; 556;
     1015; 667; 667; 722; 722; 667; 611; 778; 722; 278; 500; 667; 556; 833; 722; 778;
     667; 778; 722; 667; 611; 722; 667; 944; 667; 667; 611; 278; 278; 278; 469; 556;
     333; 556; 556; 500; 556; 556; 278; 556; 556; 222; 222; 500; 222; 833; 556; 556;
     556; 556; 333; 500; 278; 556; 500; 722; 500; 500; 500; 334; 260; 334; 584] 0.

Definition long_text : string :=
  "Replace the broken bathroom sink faucet and repaint the ceiling near the window".
Definition long_word : string := "WWWWWWWWWWWWWWWWWWWWWWWWW".
Definition padded_text : string :=
  "a" +:+ string_of_list_ascii (replicate 83 " "%char).

Definition report_request_time : string := "2025-04-15 09:30:00".

(** The status of a response is 200 or 500. *)
Definition ok_or_500 (r : result payload) : Prop :=
  status_code_of r = 200%Z \/ status_code_of r = 500%Z.








(** The texts drawn at horizontal position [x], in drawing order. *)
Definition drawn_at (x : Z) (ops : list canvas_op) : list string :=
  omap (fun op => match op with
                  | DrawString x' _ text => if x' =? x then Some text else None
                  | _ => None
                  end) ops.

(** The vertical positions of the texts drawn at horizontal position [x]. *)
Definition positions_at (x : Z) (ops : list canvas_op) : list Z :=
  omap (fun op => match op with
                  | DrawString x' y _ => if x' =? x then Some y else None
                  | _ => None
                  end) ops.

(** The printed form of a year reads back as that year. *)
Definition year_reads_back (y : Z) : bool :=
  match parse_year (str_int y) with
  | Some (y', EmptyString) => y' =? y
  | _ => false
  end.

(** An edit request that gives the room as the number 101. *)
Definition numeric_room_request : json_object :=
  list_to_map [("property_code"%string, VStr "NY345"); ("room_number"%string, VInt 101);
               ("work_order"%string, VStr "Replace lamp");
               ("completion_date"%string, VStr "2025-04-15");
               ("status"%string, VStr "Completed")].

(** ** Worksheet lemmas *)

(** One step of a handler whose tests have been decided. *)
Ltac reduce :=
  cbn [negb andb orb fst snd forallb default from_option id fmap option_fmap option_map tail];
  cbv beta iota.


Section WorksheetFacts.
Local Open Scope nat_scope.
Implicit Types (ws : worksheet) (cells : list value) (v : value).

Lemma max_column_pos ws : 1 <= max_column ws.
Proof. unfold max_column. lia. Qed.

Lemma max_column_row ws cells : cells ∈ ws -> length cells <= max_column ws.
Proof.
  intros Hin. unfold max_column.
  assert (length cells <= max_list (length <$> ws)); [|lia].
  apply max_list_elem_of_le, list_elem_of_fmap. eauto.
Qed.

Lemma max_column_cons cells ws :
  max_column (cells :: ws) = Nat.max (length cells) (max_column ws).
Proof. unfold max_column. rewrite fmap_cons. cbn. unfold id. lia. Qed.


Lemma length_pad n cells : length (pad n cells) = Nat.max n (length cells).
Proof. unfold pad. rewrite length_app, length_replicate. lia. Qed.

Lemma lookup_pad n cells i :
  i < Nat.max n (length cells) -> pad n cells !! i = Some (cell cells i).
Proof.
  intros Hi. unfold pad, cell.
  destruct (decide (i < length cells)) as [Hlt|Hge].
  - rewrite lookup_app_l by done.
    destruct (lookup_lt_is_Some_2 cells i Hlt) as [x ->]. done.
  - rewrite lookup_app_r by lia.
    rewrite (lookup_ge_None_2 cells i) by lia. simpl.
    apply lookup_replicate_2. lia.
Qed.

Lemma cell_pad n cells i : cell (pad n cells) i = cell cells i.
Proof.
  destruct (decide (i < Nat.max n (length cells))) as [Hlt|Hge].
  - unfold cell at 1. by rewrite lookup_pad.
  - unfold cell. rewrite !lookup_ge_None_2; [done|lia|rewrite length_pad; lia].
Qed.

Lemma getitem_pad n cells i :
  i < n -> getitem (pad n cells) i = Return (cell cells i).
Proof. intros Hi. unfold getitem. rewrite lookup_pad by lia. done. Qed.

Lemma getitem_pad_any n cells i :
  i < Nat.max n (length cells) -> getitem (pad n cells) i = Return (cell cells i).
Proof. intros Hi. unfold getitem. rewrite lookup_pad by lia. done. Qed.

Lemma getitem_pad_short n cells i :
  Nat.max n (length cells) <= i ->
  getitem (pad n cells) i = Raise (IndexError "tuple index out of range").
Proof.
  intros Hi. unfold getitem. rewrite lookup_ge_None_2; [done|].
  rewrite length_pad. lia.
Qed.

Lemma cell_insert cells i j v :
  i < length cells -> cell (<[i:=v]> cells) j = if decide (i = j) then v else cell cells j.
Proof.
  intros Hi. unfold cell. rewrite list_lookup_insert.
  repeat case_decide; try done; lia.
Qed.

(** Writing one cell of a row that exists. *)
Lemma put_cell_middle hdr before target after c v :
  put_cell (S (S (length before))) c v (hdr :: before ++ target :: after)
  = hdr :: before ++ <[(c - 1) := v]> (pad c target) :: after.
Proof.
  unfold put_cell.
  replace (S (S (length before)) - length (hdr :: before ++ target :: after)) with 0
    by (simpl; rewrite length_app; simpl; lia).
  simpl. rewrite app_nil_r. f_equal.
  change (list_alter ?f ?i ?l) with (alter f i l).
  rewrite alter_app_r_alt by lia. rewrite Nat.sub_diag. done.
Qed.

End WorksheetFacts.


(** ** Binding values to cells, and reading them back *)

Section CellFacts.
Local Open Scope nat_scope.
Implicit Types (ws : worksheet) (cells : list value) (v : value) (s : string).

Lemma take_chars_all n s : (N.of_nat (String.length s) <= n)%N -> take_chars n s = s.
Proof.
  revert n. induction s as [|c s IH]; intros n Hn; simpl in *; [done|].
  destruct (N.eqb_spec n 0) as [->|Hn0]; [lia|].
  f_equal. apply IH. lia.
Qed.

Lemma existsb_forallb_negb {A} (f : A -> bool) (l : list A) :
  existsb f l = negb (forallb (fun x => negb (f x)) l).
Proof. induction l as [|x l IH]; simpl; [done|]. rewrite IH. by destruct (f x). Qed.

Lemma check_string_legal s : legal s = true -> check_string s = Return s.
Proof.
  unfold legal, check_string. intros [Hc Hl%N.leb_le]%andb_prop.
  rewrite take_chars_all by done.
  rewrite existsb_forallb_negb, Hc. done.
Qed.




Lemma bind_value_legal s : legal s = true -> bind_value (VStr s) = Return (VStr s).
Proof. intros H. simpl. by rewrite check_string_legal. Qed.

Lemma bind_value_datetime d : bind_value (VDatetime d) = Return (VDatetime d).
Proof. done. Qed.



Lemma stored_value_kept s : kept s = true -> stored_value (VStr s) = VStr s.
Proof.
  unfold kept. intros [_ Hs%negb_true_iff]%andb_prop. simpl. by rewrite Hs.
Qed.




Lemma cell_nil i : cell [] i = VNone.
Proof. unfold cell. by rewrite lookup_nil. Qed.

Lemma cell_cons v cells i :
  cell (v :: cells) i = match i with 0 => v | S j => cell cells j end.
Proof. by destruct i. Qed.

Lemma cell_drop_empty_end cells i : cell (drop_empty_end cells) i = cell cells i.
Proof.
  revert i. induction cells as [|v cells IH]; intros i; simpl; [done|].
  destruct (drop_empty_end cells) as [|w rest] eqn:Hd.
  - destruct (is_None v) eqn:Hv.
    + destruct v; try done. rewrite cell_nil, cell_cons.
      destruct i; [done|]. rewrite <- IH. by rewrite cell_nil.
    + rewrite !cell_cons. destruct i; [done|]. rewrite <- IH. done.
  - rewrite !cell_cons. destruct i; [done|]. by rewrite <- IH.
Qed.

Lemma cell_fmap (f : value -> value) cells i :
  f VNone = VNone -> cell (f <$> cells) i = f (cell cells i).
Proof.
  intros Hf. unfold cell. rewrite list_lookup_fmap.
  by destruct (cells !! i).
Qed.

(** Cell by cell, a row is read back as its values are. *)
Lemma cell_stored_row cells i : cell (stored_row cells) i = stored_value (cell cells i).
Proof. unfold stored_row. rewrite cell_drop_empty_end. by apply cell_fmap. Qed.







Lemma stored_cons cells ws : stored (cells :: ws) = stored_row cells :: stored ws.
Proof. done. Qed.


Lemma as_loaded_cons cells ws :
  as_loaded (cells :: ws) <-> stored_row cells = cells /\ as_loaded ws.
Proof.
  unfold as_loaded. rewrite stored_cons. split.
  - intros [= H1 H2]. done.
  - intros [-> ->]. done.
Qed.

Lemma as_loaded_app ws1 ws2 : as_loaded (ws1 ++ ws2) <-> as_loaded ws1 /\ as_loaded ws2.
Proof.
  induction ws1 as [|cells ws1 IH]; simpl.
  - split; [intros H; split; [done|exact H]|by intros [_ H]].
  - rewrite !as_loaded_cons, IH. tauto.
Qed.

Lemma as_loaded_nil : as_loaded [].
Proof. done. Qed.


Lemma as_loaded_delete hdr before target after :
  as_loaded (hdr :: before ++ target :: after) -> as_loaded (hdr :: before ++ after).
Proof.
  intros [Hh [Hb [Ht Ha]%as_loaded_cons]%as_loaded_app]%as_loaded_cons.
  apply as_loaded_cons. split; [done|]. apply as_loaded_app. done.
Qed.


Lemma length_drop_empty_end cells : length (drop_empty_end cells) <= length cells.
Proof.
  induction cells as [|v cells IH]; simpl; [done|].
  destruct (drop_empty_end cells); [destruct (is_None v)|]; simpl in *; lia.
Qed.

Lemma length_stored_row cells : length (stored_row cells) <= length cells.
Proof.
  unfold stored_row. etrans; [apply length_drop_empty_end|]. by rewrite length_fmap.
Qed.

Lemma max_column_stored_le ws : max_column (stored ws) <= max_column ws.
Proof.
  induction ws as [|cells ws IH]; [done|].
  rewrite stored_cons, !max_column_cons. pose proof (length_stored_row cells). lia.
Qed.

End CellFacts.

(** ** Paths of stores *)

Section PathFacts.
Local Open Scope nat_scope.
Implicit Types (s code : string).

Lemma contains_cons c a s : contains c (String a s) = Ascii.eqb c a || contains c s.
Proof. done. Qed.

Lemma contains_app c s1 s2 : contains c (s1 +:+ s2) = contains c s1 || contains c s2.
Proof.
  induction s1 as [|a s1 IH]; [done|].
  change (String a s1 +:+ s2) with (String a (s1 +:+ s2)).
  rewrite !contains_cons, IH. by rewrite orb_assoc.
Qed.

Lemma split_on_no_sep sep s : contains sep s = false -> split_on sep s = [s].
Proof.
  induction s as [|a s IH]; [done|].
  rewrite contains_cons. intros [Ha Hs]%orb_false_elim. simpl.
  rewrite Ascii.eqb_sym, Ha, (IH Hs). done.
Qed.

Lemma string_app_length s1 s2 : String.length (s1 +:+ s2) = String.length s1 + String.length s2.
Proof. induction s1 as [|a s1 IH]; simpl; [done|]. by rewrite IH. Qed.

Lemma string_app_inv_tail s1 s2 t : s1 +:+ t = s2 +:+ t -> s1 = s2.
Proof.
  revert s2. induction s1 as [|a s1 IH]; intros [|b s2] H; simpl in *; try done.
  - apply (f_equal String.length) in H.
    rewrite !string_app_length in H. simpl in H. lia.
  - apply (f_equal String.length) in H.
    rewrite !string_app_length in H. simpl in H. lia.
  - injection H as -> H. f_equal. by apply IH.
Qed.

(** The file name of a store is not a part that [pathlib] drops. *)
Lemma store_name_kept code suffix :
  2 <= String.length suffix ->
  negb (String.eqb (code +:+ suffix) EmptyString || String.eqb (code +:+ suffix) ".") = true.
Proof.
  intros Hs. apply negb_true_iff, orb_false_intro; apply String.eqb_neq; intros H;
    apply (f_equal String.length) in H; rewrite string_app_length in H; simpl in H; lia.
Qed.

Lemma path_root_relative code suffix :
  no_slash code = true -> contains "/" suffix = false -> suffix <> EmptyString ->
  path_root (code +:+ suffix) = EmptyString.
Proof.
  unfold no_slash. intros Hc%negb_true_iff Hs Hne.
  destruct code as [|a code]; simpl.
  - destruct suffix as [|b suffix]; [done|].
    rewrite contains_cons in Hs. apply orb_false_elim in Hs as [Hb _].
    apply Ascii.eqb_neq in Hb. simpl.
    destruct b as [[] [] [] [] [] [] [] []]; first [done | by destruct Hb].
  - rewrite contains_cons in Hc. apply orb_false_elim in Hc as [Ha _].
    apply Ascii.eqb_neq in Ha.
    destruct a as [[] [] [] [] [] [] [] []]; first [done | by destruct Ha].
Qed.

Lemma path_join_plain directory code suffix :
  no_slash code = true -> contains "/" suffix = false -> 2 <= String.length suffix ->
  path_join directory (code +:+ suffix) = directory +:+ "/" +:+ code +:+ suffix.
Proof.
  intros Hc Hs Hl. unfold path_join.
  rewrite path_root_relative; [|done|done|by intros ->; simpl in Hl; lia].
  simpl. unfold path_parts.
  rewrite split_on_no_sep.
  - simpl. rewrite store_name_kept by done. done.
  - rewrite contains_app, Hs. unfold no_slash in Hc. apply negb_true_iff in Hc.
    by rewrite Hc.
Qed.

(** For a property code without [/], the store is the file of that name in
    the upload directory. *)
Lemma store_path_plain code :
  no_slash code = true -> store_path code = "uploads/" +:+ code +:+ "_work_orders.xlsx".
Proof.
  intros H. unfold store_path. rewrite path_join_plain; [done|done|done|simpl; lia].
Qed.

Lemma dirname_store_path code : no_slash code = true -> dirname (store_path code) = "uploads"%string.
Proof.
  intros H. rewrite store_path_plain by done. unfold dirname.
  change ("uploads/" +:+ code +:+ "_work_orders.xlsx")
    with ("uploads" +:+ String "/" (code +:+ "_work_orders.xlsx")).
  assert (Hsplit : forall a b, contains "/" a = false -> contains "/" b = false ->
            split_on "/" (a +:+ String "/" b) = [a; b]).
  { intros a b Ha Hb. induction a as [|c a IH]; simpl.
    - by rewrite (split_on_no_sep _ _ Hb).
    - rewrite contains_cons in Ha. apply orb_false_elim in Ha as [Hc Ha].
      rewrite Ascii.eqb_sym, Hc, (IH Ha). done. }
  rewrite Hsplit; [done|done|].
  rewrite contains_app. unfold no_slash in H. apply negb_true_iff in H. by rewrite H.
Qed.

(** Two property codes without [/] have the same store only when they are
    the same code. *)
Lemma store_path_inj code1 code2 :
  no_slash code1 = true -> no_slash code2 = true ->
  store_path code1 = store_path code2 -> code1 = code2.
Proof.
  intros H1 H2. rewrite !store_path_plain by done.
  intros H. apply (string_app_inv_tail _ _ "_work_orders.xlsx").
  change ("uploads/" +:+ ?c +:+ ?t) with ("uploads/" +:+ (c +:+ t)) in H.
  by apply (inj (String.append "uploads/")) in H.
Qed.

End PathFacts.
(** ** Python primitives on concrete inputs *)

Example str_int_101 : str (VInt 101) = "101"%string.
Proof. reflexivity. Qed.
Example str_int_neg : str (VInt (-7)) = "-7"%string.
Proof. reflexivity. Qed.
Example str_datetime_ex :
  str (VDatetime (mk_datetime 2025 3 1 0 0 0)) = "2025-03-01 00:00:00"%string.
Proof. reflexivity. Qed.
Example split_on_ex : split_on "," "101, 102,"%string = ["101"; " 102"; EmptyString]%string.
Proof. reflexivity. Qed.
Example strip_ex : strip "  Fix  sink "%string = "Fix  sink"%string.
Proof. reflexivity. Qed.
Example split_ex : split "  Fix  the sink "%string = ["Fix"; "the"; "sink"]%string.
Proof. reflexivity. Qed.
Example strptime_ok :
  strptime_ymd "2025-03-01" = Return (mk_datetime 2025 3 1 0 0 0).
Proof. reflexivity. Qed.
Example strptime_short : strptime_ymd "2025-3-1" = Return (mk_datetime 2025 3 1 0 0 0).
Proof. reflexivity. Qed.
Example strptime_bad : strptime_ymd "13-2025-01" = Raise (ValueError "time data does not match format").
Proof. reflexivity. Qed.
Example strptime_feb30 : strptime_ymd "2025-02-30" = Raise (ValueError "day is out of range for month").
Proof. reflexivity. Qed.
Example strptime_year_0 : strptime_ymd "0000-01-01" = Raise (ValueError "year is out of range").
Proof. reflexivity. Qed.
Example strptime_leap_day : strptime_ymd "2024-02-29" = Return (mk_datetime 2024 2 29 0 0 0).
Proof. reflexivity. Qed.
Example strptime_trailing : strptime_ymd "2025-03-011" = Raise (ValueError "unconverted data remains").
Proof. reflexivity. Qed.

(** ** The scanning loops find the first addressed row *)

Section ScanFacts.
Local Open Scope nat_scope.
Implicit Types (ws : worksheet) (cells : list value) (v : value).

Lemma first_match_None m data : first_match m data = None <-> misses m data.
Proof.
  unfold misses. induction data as [|c data IH]; simpl.
  - split; [constructor|done].
  - destruct (m c) eqn:E.
    + split; [done|]. intros H. inversion H; congruence.
    + rewrite fmap_None, IH. split.
      * by constructor.
      * by inversion 1.
Qed.

Lemma first_match_middle m before target after :
  misses m before -> m target = true ->
  first_match m (before ++ target :: after) = Some (length before).
Proof.
  intros Hb Ht. induction Hb as [|c before Hc Hb IH]; simpl.
  - by rewrite Ht.
  - by rewrite Hc, IH.
Qed.

Lemma first_match_split m data i :
  first_match m data = Some i ->
  exists before target after,
    data = before ++ target :: after /\ length before = i /\
    misses m before /\ m target = true.
Proof.
  revert i. induction data as [|c data IH]; simpl; intros i; [done|].
  destruct (m c) eqn:E.
  - intros [= <-]. exists [], c, data. repeat split; [constructor|done].
  - destruct (first_match m data) as [j|]; [|done]. simpl. intros [= <-].
    destruct (IH j eq_refl) as (b & t & a & -> & <- & Hb & Ht).
    exists (c :: b), t, a. repeat split; [by constructor|done].
Qed.

Lemma find_existing_row_is_first n w data room :
  1 <= w ->
  find_existing_row (rows_from n w data) room
  = Return (first_match (room_matches room) data ≫= fun i =>
              (fun cells => (n + i, pad w cells)) <$> data !! i).
Proof.
  intros Hw. revert n. induction data as [|c data IH]; intros n; simpl; [done|].
  rewrite getitem_pad by lia. simpl. unfold room_matches at 1.
  destruct (String.eqb _ _) eqn:E; simpl.
  - by rewrite Nat.add_0_r.
  - rewrite IH. f_equal. destruct (first_match _ data) as [i|]; simpl; [|done].
    by rewrite Nat.add_succ_r.
Qed.

Lemma find_row_to_delete_is_first n w data room :
  1 <= w ->
  find_row_to_delete (rows_from n w data) room
  = Return ((fun i => n + i) <$> first_match (room_matches room) data).
Proof.
  intros Hw. revert n. induction data as [|c data IH]; intros n; simpl; [done|].
  rewrite getitem_pad by lia. simpl. unfold room_matches at 1.
  destruct (String.eqb _ _) eqn:E; simpl.
  - by rewrite Nat.add_0_r.
  - rewrite IH. f_equal. destruct (first_match _ data) as [i|]; simpl; [|done].
    by rewrite Nat.add_succ_r.
Qed.

Lemma edit_rows_miss n w data room wo d sheet :
  1 <= w -> misses (room_matches_json room) data ->
  edit_rows (rows_from n w data) room wo d sheet = Return (false, sheet).
Proof.
  intros Hw Hm. revert n. induction Hm as [|c data Hc Hm IH]; intros n; simpl; [done|].
  rewrite getitem_pad by lia. simpl. unfold room_matches_json in Hc. by rewrite Hc.
Qed.

(** The scan of an edit at the first addressed row. *)
Lemma edit_rows_at n w before target after room wo d sheet :
  1 <= w -> misses (room_matches_json room) before -> room_matches_json room target = true ->
  edit_rows (rows_from n w (before ++ target :: after)) room wo d sheet
  = (let* _ := getitem (pad w target) 1 in
     let* sheet1 := set_cell (n + length before) 2 wo sheet in
     let* _ := getitem (pad w target) 2 in
     let* sheet2 := set_cell (n + length before) 3 (VDatetime d) sheet1 in
     Return (true, sheet2)).
Proof.
  intros Hw Hm Ht. revert n. induction Hm as [|c data Hc Hm IH]; intros n; simpl.
  - rewrite getitem_pad by lia. simpl. unfold room_matches_json in Ht.
    rewrite Ht. simpl. by rewrite Nat.add_0_r.
  - rewrite getitem_pad by lia. simpl. unfold room_matches_json in Hc. rewrite Hc.
    rewrite IH. by rewrite Nat.add_succ_r.
Qed.

Lemma edit_rows_found n w data room wo d sheet :
  1 <= w ->
  edit_rows (rows_from n w data) room wo d sheet = Return (false, sheet)
  <-> first_match (room_matches_json room) data = None.
Proof.
  intros Hw. rewrite first_match_None. split; [|by apply edit_rows_miss].
  revert n. induction data as [|c data IH]; intros n; simpl; [constructor|].
  rewrite getitem_pad by lia. simpl. fold (room_matches_json room c).
  destruct (room_matches_json room c) eqn:E.
  - unfold set_cell. destruct (getitem (pad w c) 1); cbn [rbind]; [|done].
    destruct (bind_value wo); cbn [rbind]; [|done].
    destruct (getitem (pad w c) 2); simpl; done.
  - intros H. constructor; [done|]. by eapply IH.
Qed.

Lemma update_rows_miss n w data room st best sheet :
  1 <= w -> misses (room_matches_json room) data ->
  update_rows (rows_from n w data) room st best sheet = Return (false, sheet).
Proof.
  intros Hw Hm. revert n. induction Hm as [|c data Hc Hm IH]; intros n; simpl; [done|].
  rewrite getitem_pad by lia. simpl. unfold room_matches_json in Hc. by rewrite Hc.
Qed.

(** The scan of a status update at the first addressed row. *)
Lemma update_rows_at n w before target after room st best sheet :
  1 <= w -> misses (room_matches_json room) before -> room_matches_json room target = true ->
  update_rows (rows_from n w (before ++ target :: after)) room st best sheet
  = (let* _ := getitem (pad w target) 3 in
     let* sheet1 := set_cell (n + length before) 4 st sheet in
     let* sheet2 := set_cell (n + length before) 5 best sheet1 in
     Return (true, sheet2)).
Proof.
  intros Hw Hm Ht. revert n. induction Hm as [|c data Hc Hm IH]; intros n; simpl.
  - rewrite getitem_pad by lia. simpl. unfold room_matches_json in Ht.
    rewrite Ht. simpl. rewrite Nat.add_0_r, length_pad.
    destruct (getitem (pad w target) 3) eqn:E3; simpl; [|done].
    destruct (set_cell (n + 0) 4 st sheet) eqn:E4; rewrite Nat.add_0_r in E4; rewrite E4;
      simpl; [|done].
    destruct (4 <? Nat.max w (length target)) eqn:E; [|done].
    apply Nat.ltb_lt in E. rewrite getitem_pad_any by (rewrite ?length_pad; lia). done.
  - rewrite getitem_pad by lia. simpl. unfold room_matches_json in Hc. rewrite Hc.
    rewrite IH. by rewrite Nat.add_succ_r.
Qed.

Lemma update_rows_found n w data room st best sheet :
  1 <= w ->
  update_rows (rows_from n w data) room st best sheet = Return (false, sheet)
  <-> first_match (room_matches_json room) data = None.
Proof.
  intros Hw. rewrite first_match_None. split; [|by apply update_rows_miss].
  revert n. induction data as [|c data IH]; intros n; simpl; [constructor|].
  rewrite getitem_pad by lia. simpl. fold (room_matches_json room c).
  destruct (room_matches_json room c) eqn:E.
  - unfold set_cell. destruct (getitem (pad w c) 3); cbn [rbind]; [|done].
    destruct (bind_value st); cbn [rbind]; [|done].
    destruct (4 <? _).
    + destruct (getitem (pad w c) 4); cbn [rbind]; [|done].
      destruct (bind_value best); simpl; done.
    + destruct (bind_value best); simpl; done.
  - intros H. constructor; [done|]. by eapply IH.
Qed.

End ScanFacts.

(** ** Listing a store *)

Section ListingFacts.
Local Open Scope nat_scope.
Implicit Types (ws : worksheet) (cells : list value) (v : value).

Lemma take4_pad w cells :
  4 <= w -> take 4 (pad w cells) = [cell cells 0; cell cells 1; cell cells 2; cell cells 3].
Proof.
  intros Hw. apply list_eq. intros i.
  destruct (decide (i < 4)) as [Hi|Hi].
  - rewrite lookup_take_lt, lookup_pad by lia.
    do 4 (destruct i as [|i]; [done|]). lia.
  - rewrite lookup_take_ge by lia. symmetry. apply lookup_ge_None_2. simpl. lia.
Qed.

Lemma cell_beyond cells i : length cells <= i -> cell cells i = VNone.
Proof. intros Hi. unfold cell. by rewrite lookup_ge_None_2. Qed.

Lemma collect_work_orders_spec n w data :
  4 <= w -> Forall (fun cells => length cells <= w) data ->
  collect_work_orders (rows_from n w data) = Return (entry_of <$> List.filter has_data data).
Proof.
  intros Hw Hall. revert n. induction Hall as [|c data Hc Hall IH]; intros n; simpl; [done|].
  rewrite take4_pad by done. simpl. rewrite !andb_true_r.
  replace (negb (is_None (cell c 0)) && (negb (is_None (cell c 1)) &&
          (negb (is_None (cell c 2)) && negb (is_None (cell c 3)))))%bool
    with (has_data c) by (unfold has_data; by rewrite !andb_assoc).
  destruct (has_data c) eqn:E; [|apply IH].
  rewrite !getitem_pad by lia. simpl. rewrite length_pad.
  assert (Hbest : (if 4 <? Nat.max w (length c)
                   then let* c4 := getitem (pad w c) 4 in
                        Return (if truthy c4 then str c4 else "No"%string)
                   else Return "No"%string)
                  = Return (if truthy (cell c 4) then str (cell c 4) else "No"%string)).
  { destruct (4 <? Nat.max w (length c)) eqn:E4.
    - apply Nat.ltb_lt in E4. rewrite getitem_pad by lia. done.
    - apply Nat.ltb_ge in E4. rewrite cell_beyond by lia. done. }
  rewrite Hbest. simpl. rewrite IH. done.
Qed.

Lemma iter_rows_2 ws : iter_rows 2 ws = rows_from 2 (max_column ws) (tail ws).
Proof. unfold iter_rows. simpl. by destruct ws. Qed.

Lemma tail_widths ws : Forall (fun cells => length cells <= max_column ws) (tail ws).
Proof.
  apply Forall_forall. intros c Hc. apply max_column_row.
  destruct ws; simpl in *; [done|]. by right.
Qed.

End ListingFacts.

Section FileFacts.
Local Open Scope nat_scope.

Lemma path_exists_present fs p ws :
  files fs !! p = Some ws -> path_exists p fs = (Return true, fs).
Proof. intros H. unfold path_exists. rewrite H. done. Qed.

Lemma path_exists_absent fs p :
  files fs !! p = None -> path_exists p fs = (Return false, fs).
Proof. intros H. unfold path_exists. rewrite H. done. Qed.

Lemma load_workbook_present fs p ws :
  files fs !! p = Some ws -> load_workbook p fs = (Return ws, fs).
Proof. intros H. unfold load_workbook. by rewrite H. Qed.


Lemma get_work_orders_present fs code ws :
  files fs !! store_path code = Some ws -> 4 <= max_column ws ->
  get_work_orders code fs = (Return (WorkOrdersList (listed_entries ws)), fs).
Proof.
  intros H Hw. unfold get_work_orders, except_Exception, try_except, bind.
  rewrite (path_exists_present _ _ _ H). simpl.
  rewrite (load_workbook_present _ _ _ H). unfold lift.
  rewrite iter_rows_2, collect_work_orders_spec by auto using tail_widths. done.
Qed.

Lemma wb_save_present fs p ws0 ws :
  files fs !! p = Some ws0 -> wb_save p ws fs = (Return tt, saved p ws fs).
Proof. intros H. unfold wb_save, writable. rewrite H. done. Qed.

Lemma wb_save_dir fs p ws :
  dirname p ∈ dirs fs -> wb_save p ws fs = (Return tt, saved p ws fs).
Proof.
  intros H. unfold wb_save, writable. rewrite (bool_decide_eq_true_2 _ H), orb_true_r. done.
Qed.

Lemma wb_save_missing fs p ws :
  files fs !! p = None -> dirname p ∉ dirs fs ->
  wb_save p ws fs
  = (Raise (FileNotFoundError ("[Errno 2] No such file or directory: " +:+ repr_str p)), fs).
Proof.
  intros H Hd. unfold wb_save, writable. rewrite H, (bool_decide_eq_false_2 _ Hd). done.
Qed.

Lemma files_saved p ws fs q :
  files (saved p ws fs) !! q = if decide (p = q) then Some (stored ws) else files fs !! q.
Proof.
  unfold saved. simpl. case_decide as E.
  - subst. apply lookup_insert_eq.
  - by apply lookup_insert_ne.
Qed.

End FileFacts.

(** ** Submitting work orders *)

Section SubmitFacts.
Local Open Scope nat_scope.
Implicit Types (ws : worksheet) (cells : list value) (v : value).

Lemma cell_assign i v cells j :
  cell (assign i v cells) j = if decide (i = j) then v else cell cells j.
Proof.
  unfold assign. rewrite cell_insert by (rewrite length_pad; lia).
  case_decide; [done|apply cell_pad].
Qed.


Lemma put_cell_assign hdr before target after i v :
  put_cell (S (S (length before))) (S i) v (hdr :: before ++ target :: after)
  = hdr :: before ++ assign i v target :: after.
Proof.
  rewrite put_cell_middle. unfold assign. simpl. by rewrite Nat.sub_0_r.
Qed.

(** Assigning a cell of the row in the middle: the value is bound first. *)
Lemma set_cell_assign hdr before target after i v :
  set_cell (S (S (length before))) (S i) v (hdr :: before ++ target :: after)
  = (let* v' := bind_value v in Return (hdr :: before ++ assign i v' target :: after)).
Proof.
  unfold set_cell. destruct (bind_value v); cbn [rbind]; [|done].
  by rewrite put_cell_assign.
Qed.

(** The row of a new record: the room and the text go through the check of
    strings. *)
Lemma append_new_row room text d ws :
  append (new_row room text d) ws
  = (let* r := check_string room in
     let* t := check_string text in
     Return (ws ++ [new_row r t d])).
Proof.
  unfold append, new_row. cbn [bind_values bind_value].
  destruct (check_string room); cbn [rbind]; [|done].
  destruct (check_string text); cbn [rbind]; [|done].
  done.
Qed.


Lemma process_work_order_new d ws room text :
  misses (room_matches room) (tail ws) ->
  process_work_order d ws (room, text) = append (new_row room text d) ws.
Proof.
  intros Hm. unfold process_work_order. cbn [fst snd].
  rewrite iter_rows_2, find_existing_row_is_first by apply max_column_pos.
  apply first_match_None in Hm. rewrite Hm. done.
Qed.

Lemma process_work_order_existing d hdr before target after room text :
  3 <= max_column (hdr :: before ++ target :: after) ->
  misses (room_matches room) before -> room_matches room target = true ->
  process_work_order d (hdr :: before ++ target :: after) (room, text)
  = (let* s := check_string (str (cell target 1) +:+ " / " +:+ text) in
     Return (hdr :: before ++ assign 2 (VDatetime d) (assign 1 (VStr s) target) :: after)).
Proof.
  intros Hw Hm Ht. unfold process_work_order. cbn [fst snd].
  rewrite iter_rows_2, find_existing_row_is_first by apply max_column_pos.
  cbn [tail]. rewrite (first_match_middle _ _ _ _ Hm Ht). cbn [mbind option_bind rbind].
  rewrite list_lookup_middle by done. cbn [fmap option_fmap option_map rbind].
  rewrite length_pad.
  set (w := max_column _) in *.
  destruct (Nat.max w (length target)) as [|k] eqn:Ek; [lia|]. cbn [Nat.eqb negb].
  rewrite !getitem_pad by lia. cbn [rbind].
  change (2 + length before) with (S (S (length before))).
  rewrite set_cell_assign. cbn [bind_value].
  destruct (check_string _) as [s|e]; cbn [rbind]; [|done].
  rewrite set_cell_assign. done.
Qed.

(** What a pair did when the loop body returned. *)
Lemma process_work_order_cases d ws room text ws' :
  process_work_order d ws (room, text) = Return ws' ->
  (misses (room_matches room) (tail ws) /\
   exists r t, check_string room = Return r /\ check_string text = Return t /\
               ws' = ws ++ [new_row r t d])
  \/ (exists hdr before target after s,
        ws = hdr :: before ++ target :: after /\
        misses (room_matches room) before /\ room_matches room target = true /\
        3 <= max_column ws /\
        check_string (str (cell target 1) +:+ " / " +:+ text) = Return s /\
        ws' = hdr :: before ++ assign 2 (VDatetime d) (assign 1 (VStr s) target) :: after).
Proof.
  intros H.
  destruct (first_match (room_matches room) (tail ws)) as [i|] eqn:E.
  - right. apply first_match_split in E as (before & target & after & Hd & _ & Hm & Ht).
    destruct ws as [|hdr data]; [by destruct before|]. simpl in Hd. subst data.
    destruct (decide (3 <= max_column (hdr :: before ++ target :: after))) as [Hw|Hw].
    + rewrite process_work_order_existing in H by done.
      destruct (check_string _) as [s|e] eqn:Hs; [|done]. injection H as <-.
      exists hdr, before, target, after, s. done.
    + exfalso. revert H. unfold process_work_order. cbn [fst snd].
      rewrite iter_rows_2, find_existing_row_is_first by apply max_column_pos.
      cbn [tail]. rewrite (first_match_middle _ _ _ _ Hm Ht). cbn [mbind option_bind rbind].
      rewrite list_lookup_middle by done. cbn [fmap option_fmap option_map rbind].
      rewrite length_pad.
      assert (Hl : length target <= max_column (hdr :: before ++ target :: after)).
      { apply max_column_row. set_solver. }
      set (w := max_column _) in *. pose proof (max_column_pos (hdr :: before ++ target :: after)).
      destruct (Nat.max w (length target)) as [|k] eqn:Ek; [lia|]. cbn [Nat.eqb negb].
      destruct (decide (2 <= w)) as [H2|H2].
      * rewrite (getitem_pad w target 1) by lia. cbn [rbind].
        unfold set_cell. destruct (bind_value _); cbn [rbind]; [|done].
        rewrite getitem_pad_short by lia. done.
      * rewrite getitem_pad_short by lia. done.
  - left. apply first_match_None in E. split; [done|].
    rewrite process_work_order_new, append_new_row in H by done.
    destruct (check_string room) as [r|]; [|done].
    destruct (check_string text) as [t|]; [|done].
    injection H as <-. eauto.
Qed.

Lemma process_work_orders_app d ws pairs1 pairs2 :
  process_work_orders d ws (pairs1 ++ pairs2)
  = (let* ws1 := process_work_orders d ws pairs1 in process_work_orders d ws1 pairs2).
Proof.
  revert ws. induction pairs1 as [|item pairs1 IH]; intros ws; simpl; [done|].
  destruct (process_work_order d ws item); simpl; [apply IH|done].
Qed.

(** The handler on a store that exists: the table after the loop is saved,
    and nothing is when the loop raises. *)
Lemma create_work_order_present wo d fs ws :
  length (split_on "," (room_numbers wo)) = length (split_on "," (work_orders wo)) ->
  strptime_ymd (completion_date wo) = Return d ->
  files fs !! store_path (property_code wo) = Some ws ->
  create_work_order wo fs =
    match process_work_orders d ws (submitted_pairs wo) with
    | Return ws' => (Return saved_message, saved (store_path (property_code wo)) ws' fs)
    | Raise e => (Raise (HTTPException 500 (str_exn e)), fs)
    end.
Proof.
  intros Hlen Hd Hf.
  unfold create_work_order, except_Exception, try_except, bind, ensure_excel_file, bind, lift.
  rewrite !length_fmap, Hlen, Nat.eqb_refl, Hd. cbn [negb].
  rewrite (path_exists_present _ _ _ Hf). cbn [negb]. unfold ret.
  rewrite (load_workbook_present _ _ _ Hf).
  fold (submitted_pairs wo).
  destruct (process_work_orders d ws (submitted_pairs wo)); [|done].
  rewrite (wb_save_present _ _ _ _ Hf). done.
Qed.

(** The handler on a property without a store: the file is created with the
    header row when its directory exists, and stays so when the loop raises. *)
Lemma create_work_order_absent wo d fs :
  length (split_on "," (room_numbers wo)) = length (split_on "," (work_orders wo)) ->
  strptime_ymd (completion_date wo) = Return d ->
  files fs !! store_path (property_code wo) = None ->
  dirname (store_path (property_code wo)) ∈ dirs fs ->
  create_work_order wo fs =
    match process_work_orders d [header_row] (submitted_pairs wo) with
    | Return ws' =>
        (Return saved_message,
         saved (store_path (property_code wo)) ws'
               (saved (store_path (property_code wo)) [header_row] fs))
    | Raise e =>
        (Raise (HTTPException 500 (str_exn e)),
         saved (store_path (property_code wo)) [header_row] fs)
    end.
Proof.
  intros Hlen Hd Hf Hdir.
  unfold create_work_order, except_Exception, try_except, bind, ensure_excel_file, bind, lift.
  rewrite !length_fmap, Hlen, Nat.eqb_refl, Hd. cbn [negb].
  rewrite (path_exists_absent _ _ Hf). cbn [negb].
  change (append header_row []) with (Return (A := worksheet) [header_row]). cbv beta iota.
  rewrite (wb_save_dir _ _ _ Hdir). unfold ret.
  set (fs1 := saved _ _ fs).
  assert (Hf1 : files fs1 !! store_path (property_code wo) = Some [header_row]).
  { unfold fs1. rewrite files_saved. by rewrite decide_True. }
  rewrite (load_workbook_present _ _ _ Hf1).
  fold (submitted_pairs wo).
  destruct (process_work_orders d [header_row] (submitted_pairs wo)); [|done].
  rewrite (wb_save_present _ _ _ _ Hf1). done.
Qed.

Lemma create_work_order_no_directory wo d fs :
  length (split_on "," (room_numbers wo)) = length (split_on "," (work_orders wo)) ->
  strptime_ymd (completion_date wo) = Return d ->
  files fs !! store_path (property_code wo) = None ->
  dirname (store_path (property_code wo)) ∉ dirs fs ->
  create_work_order wo fs
  = (Raise (HTTPException 500
              ("[Errno 2] No such file or directory: "
                 +:+ repr_str (store_path (property_code wo)))), fs).
Proof.
  intros Hlen Hd Hf Hdir.
  unfold create_work_order, except_Exception, try_except, bind, ensure_excel_file, bind, lift.
  rewrite !length_fmap, Hlen, Nat.eqb_refl, Hd. cbn [negb].
  rewrite (path_exists_absent _ _ Hf). cbn [negb].
  change (append header_row []) with (Return (A := worksheet) [header_row]). cbv beta iota.
  rewrite (wb_save_missing _ _ _ Hf Hdir). done.
Qed.




(** A pair leaves alone every row that its room number does not address. *)
Lemma process_work_order_keeps_row d ws room text ws' i row :
  process_work_order d ws (room, text) = Return ws' ->
  ws !! i = Some row -> room_matches room row = false ->
  ws' !! i = Some row.
Proof.
  intros H Hi Hrow.
  apply process_work_order_cases in H
    as [(_ & r & t & _ & _ & ->)|(hdr & before & target & after & s & -> & _ & Ht & _ & _ & ->)].
  - by apply lookup_app_l_Some.
  - destruct i as [|j]; [done|].
    change ((before ++ target :: after) !! j = Some row) in Hi.
    change ((before ++ assign 2 (VDatetime d) (assign 1 (VStr s) target) :: after) !! j
            = Some row).
    destruct (decide (j < length before)) as [Hlt|Hge].
    + rewrite lookup_app_l in Hi by done. by rewrite lookup_app_l.
    + rewrite lookup_app_r in Hi by lia. rewrite lookup_app_r by lia.
      destruct (j - length before) as [|k] eqn:Ek; [|done].
      injection Hi as <-. congruence.
Qed.

Lemma process_work_orders_keeps_row d ws pairs final i row room :
  process_work_orders d ws pairs = Return final ->
  ws !! i = Some row -> room_matches room row = true ->
  Forall (fun item => item.1 <> room) pairs ->
  final !! i = Some row.
Proof.
  intros H Hi Hrow Hp. revert ws H Hi.
  induction Hp as [|[room' text'] pairs Hne _ IH]; intros ws H Hi; simpl in H.
  - by injection H as <-.
  - destruct (process_work_order d ws (room', text')) as [ws1|] eqn:E; simpl in H; [|done].
    apply (IH ws1 H). eapply process_work_order_keeps_row; [done..|].
    unfold room_matches in *. apply String.eqb_eq in Hrow. apply String.eqb_neq.
    simpl in Hne. congruence.
Qed.




End SubmitFacts.
(** ** Removing and editing work orders *)

Section MutationFacts.
Local Open Scope nat_scope.
Implicit Types (ws : worksheet) (cells : list value) (v : value).

Lemma delete_rows_middle hdr before target after :
  delete_rows (2 + length before) (hdr :: before ++ target :: after) = hdr :: before ++ after.
Proof.
  unfold delete_rows. replace (2 + length before - 1) with (S (length before)) by lia.
  simpl. f_equal. apply delete_middle.
Qed.

Lemma remove_work_order_hit fs req hdr before target after :
  files fs !! store_path (rm_property_code req) = Some (hdr :: before ++ target :: after) ->
  misses (room_matches (rm_room_number req)) before ->
  room_matches (rm_room_number req) target = true ->
  remove_work_order req fs =
    (Return (Message "success"
               ("Work order for room " +:+ rm_room_number req +:+ " removed successfully")),
     saved (store_path (rm_property_code req)) (hdr :: before ++ after) fs).
Proof.
  intros Hf Hm Ht.
  unfold remove_work_order, except_Exception, try_except, bind, lift.
  rewrite (path_exists_present _ _ _ Hf). reduce.
  rewrite (load_workbook_present _ _ _ Hf).
  rewrite iter_rows_2, find_row_to_delete_is_first by apply max_column_pos.
  reduce. rewrite (first_match_middle _ _ _ _ Hm Ht). reduce.
  change (negb (2 + length before =? 0)) with true. cbv beta iota.
  rewrite delete_rows_middle. rewrite (wb_save_present _ _ _ _ Hf). done.
Qed.

Lemma row_width hdr before target after :
  length target <= max_column (hdr :: before ++ target :: after).
Proof. apply max_column_row. rewrite elem_of_cons, elem_of_app, elem_of_cons. auto. Qed.

(** An edit whose fields are present, on a store whose row [target] is the
    first that the room number addresses: the new text is bound to the cell,
    which can raise, and the sheet is saved. *)
Lemma edit_work_order_at fs data d hdr before target after :
  forallb truthy [data_get data "property_code"; data_get data "room_number";
                  data_get data "work_order"; data_get data "completion_date"] = true ->
  strptime (data_get data "completion_date") = Return d ->
  files fs !! store_path (str (data_get data "property_code"))
    = Some (hdr :: before ++ target :: after) ->
  3 <= max_column (hdr :: before ++ target :: after) ->
  misses (room_matches_json (data_get data "room_number")) before ->
  room_matches_json (data_get data "room_number") target = true ->
  edit_work_order data fs =
    match bind_value (data_get data "work_order") with
    | Return text' =>
        (Return (Message "success" "Work order updated successfully"),
         saved (store_path (str (data_get data "property_code")))
               (hdr :: before ++ assign 2 (VDatetime d) (assign 1 text' target) :: after) fs)
    | Raise e => (Raise (HTTPException 500 (str_exn e)), fs)
    end.
Proof.
  intros Hall Hs Hf Hw Hm Hhit.
  unfold edit_work_order, except_Exception, try_except, bind, lift.
  rewrite Hall. reduce. rewrite Hs.
  rewrite (path_exists_present _ _ _ Hf). reduce.
  rewrite (load_workbook_present _ _ _ Hf).
  rewrite iter_rows_2. reduce.
  rewrite (edit_rows_at _ _ _ _ _ _ _ _ _ (max_column_pos _) Hm Hhit).
  rewrite !getitem_pad by lia. cbn [rbind].
  change (2 + length before) with (S (S (length before))).
  rewrite set_cell_assign.
  destruct (bind_value (data_get data "work_order")) as [text'|e]; cbn [rbind]; [|done].
  rewrite set_cell_assign. cbn [bind_value rbind]. reduce.
  rewrite (wb_save_present _ _ _ _ Hf). done.
Qed.

(** A status update whose fields are present, on a store whose row [target]
    is the first that the room number addresses. *)
Lemma update_room_status_at fs data hdr before target after :
  forallb truthy [data_get data "property_code"; data_get data "room_number";
                  data_get data "status"] = true ->
  files fs !! store_path (str (data_get data "property_code"))
    = Some (hdr :: before ++ target :: after) ->
  4 <= max_column (hdr :: before ++ target :: after) ->
  misses (room_matches_json (data_get data "room_number")) before ->
  room_matches_json (data_get data "room_number") target = true ->
  update_room_status data fs =
    match bind_value (data_get data "status") with
    | Return st' =>
        match bind_value (data_get_default data "best_room" (VStr "No")) with
        | Return best' =>
            (Return (Message "success" "Room status updated successfully"),
             saved (store_path (str (data_get data "property_code")))
                   (hdr :: before ++ assign 4 best' (assign 3 st' target) :: after) fs)
        | Raise e => (Raise (HTTPException 500 (str_exn e)), fs)
        end
    | Raise e => (Raise (HTTPException 500 (str_exn e)), fs)
    end.
Proof.
  intros Hall Hf Hw Hm Hhit.
  unfold update_room_status, except_Exception, try_except, bind, lift.
  rewrite Hall. reduce.
  rewrite (path_exists_present _ _ _ Hf). reduce.
  rewrite (load_workbook_present _ _ _ Hf).
  rewrite iter_rows_2. reduce.
  rewrite (update_rows_at _ _ _ _ _ _ _ _ _ (max_column_pos _) Hm Hhit).
  rewrite !getitem_pad by lia. cbn [rbind].
  change (2 + length before) with (S (S (length before))).
  rewrite set_cell_assign.
  destruct (bind_value (data_get data "status")) as [st'|e]; cbn [rbind]; [|done].
  rewrite set_cell_assign.
  destruct (bind_value (data_get_default data "best_room" (VStr "No"))) as [best'|e];
    cbn [rbind]; [|done].
  reduce. rewrite (wb_save_present _ _ _ _ Hf). done.
Qed.

(** On a sheet too narrow for the cells that the loop reads, the request is
    answered with an error and nothing is saved. *)
Lemma edit_work_order_narrow fs data hdr before target after :
  files fs !! store_path (str (data_get data "property_code"))
    = Some (hdr :: before ++ target :: after) ->
  ~ 3 <= max_column (hdr :: before ++ target :: after) ->
  misses (room_matches_json (data_get data "room_number")) before ->
  room_matches_json (data_get data "room_number") target = true ->
  exists e, edit_work_order data fs = (Raise (HTTPException 500 (str_exn e)), fs).
Proof.
  intros Hf Hw Hm Hhit.
  unfold edit_work_order, except_Exception, try_except, bind, lift.
  destruct (forallb truthy _); reduce; [|by eexists].
  destruct (strptime _) as [d|e]; [|destruct e; by eexists].
  rewrite (path_exists_present _ _ _ Hf). reduce.
  rewrite (load_workbook_present _ _ _ Hf).
  rewrite iter_rows_2. reduce.
  rewrite (edit_rows_at _ _ _ _ _ _ _ _ _ (max_column_pos _) Hm Hhit).
  pose proof (row_width hdr before target after) as Hl.
  set (w := max_column _) in *.
  destruct (decide (2 <= w)).
  - rewrite (getitem_pad w target 1) by lia. cbn [rbind].
    unfold set_cell. destruct (bind_value (data_get data "work_order")); cbn [rbind];
      [|by eexists].
    rewrite getitem_pad_short by lia. by eexists.
  - rewrite getitem_pad_short by lia. by eexists.
Qed.

Lemma update_room_status_narrow fs data hdr before target after :
  files fs !! store_path (str (data_get data "property_code"))
    = Some (hdr :: before ++ target :: after) ->
  ~ 4 <= max_column (hdr :: before ++ target :: after) ->
  misses (room_matches_json (data_get data "room_number")) before ->
  room_matches_json (data_get data "room_number") target = true ->
  exists e, update_room_status data fs = (Raise (HTTPException 500 (str_exn e)), fs).
Proof.
  intros Hf Hw Hm Hhit.
  unfold update_room_status, except_Exception, try_except, bind, lift.
  destruct (forallb truthy _); reduce; [|by eexists].
  rewrite (path_exists_present _ _ _ Hf). reduce.
  rewrite (load_workbook_present _ _ _ Hf).
  rewrite iter_rows_2. reduce.
  rewrite (update_rows_at _ _ _ _ _ _ _ _ _ (max_column_pos _) Hm Hhit).
  pose proof (row_width hdr before target after) as Hl.
  rewrite getitem_pad_short by lia. by eexists.
Qed.

End MutationFacts.
(** ** Words of a text *)

Section SplitFacts.
Local Open Scope nat_scope.

Lemma push_word_app w ws xs : push_word w (ws ++ xs) = push_word w ws ++ xs.
Proof. by destruct w. Qed.

Lemma split_go_app_space a sp b :
  isspace sp = true ->
  split_go (a +:+ String sp b) = ((split_go a).1, (split_go a).2 ++ split b).
Proof.
  intros Hsp. induction a as [|c a IH]; simpl.
  - rewrite Hsp. unfold split. by destruct (split_go b).
  - rewrite IH. destruct (split_go a) as [w ws]. simpl.
    destruct (isspace c); [|done]. by rewrite push_word_app.
Qed.

Lemma split_app_space a sp b :
  isspace sp = true -> split (a +:+ String sp b) = split a ++ split b.
Proof.
  intros Hsp. unfold split at 1 2. rewrite split_go_app_space by done.
  destruct (split_go a) as [w ws]. simpl. apply push_word_app.
Qed.

Lemma split_go_no_space w : no_space w = true -> split_go w = (w, []).
Proof.
  induction w as [|c w IH]; simpl; [done|].
  intros [Hc Hw]%andb_true_iff. rewrite (IH Hw).
  destruct (isspace c); done.
Qed.

Lemma split_word w : is_word w = true -> split w = [w].
Proof.
  intros [Hne Hw]%andb_true_iff. unfold split. rewrite split_go_no_space by done.
  destruct w; done.
Qed.

Lemma split_go_words s :
  no_space (split_go s).1 = true /\ Forall (fun w => is_word w = true) (split_go s).2.
Proof.
  induction s as [|c s [IH1 IH2]]; simpl; [by split|].
  destruct (split_go s) as [w ws]. simpl in *.
  destruct (isspace c) eqn:E; simpl.
  - split; [done|]. destruct w; [done|]. simpl. constructor; [|done].
    unfold is_word. by rewrite IH1.
  - by rewrite E, IH1.
Qed.

Lemma split_words s : Forall (fun w => is_word w = true) (split s).
Proof.
  destruct (split_go_words s) as [H1 H2]. unfold split.
  destruct (split_go s) as [w ws]. simpl in *.
  destruct w; [done|]. simpl. constructor; [|done]. unfold is_word. by rewrite H1.
Qed.

Lemma join_cons sep x y l : join sep (x :: y :: l) = x +:+ sep +:+ join sep (y :: l).
Proof. done. Qed.

(** Splitting the lines joined by single spaces gives the words of the lines. *)
Lemma split_join lines : split (join " " lines) = concat (split <$> lines).
Proof.
  induction lines as [|x [|y l] IH].
  - done.
  - simpl. by rewrite app_nil_r.
  - rewrite join_cons. change (x +:+ " " +:+ join " " (y :: l))
      with (x +:+ String " " (join " " (y :: l))).
    rewrite split_app_space by done. rewrite IH. done.
Qed.

Lemma split_join_words ws :
  Forall (fun w => is_word w = true) ws -> split (join " " ws) = ws.
Proof.
  intros H. rewrite split_join. induction H as [|w ws Hw H IH]; [done|].
  rewrite fmap_cons. cbn [List.concat]. by rewrite (split_word _ Hw), IH.
Qed.

End SplitFacts.

(** ** Wrapping the work-order text of a report row *)

Section WrapFacts.
Variable glyph_width : ascii -> Z.

Abbreviation width s := (stringWidth glyph_width s 10).
Abbreviation fits s := (stringWidth glyph_width s 10 <= budget).

(** The groups of words that the loop turns into lines. *)
Lemma wrap_words_groups words lines current lines' current' :
  wrap_words glyph_width words lines current = (lines', current') ->
  exists groups,
    lines' = lines ++ (join " " <$> groups) /\
    List.concat groups ++ current' = current ++ words.
Proof.
  revert lines current. induction words as [|word rest IH]; intros lines current; simpl.
  - intros [= <- <-]. exists []. simpl. by rewrite !app_nil_r.
  - destruct (budget <? _).
    + intros (groups & -> & Hc)%IH. exists (current :: groups). split.
      * rewrite removelast_last, <- app_assoc. done.
      * simpl. rewrite <- app_assoc, Hc. done.
    + intros (groups & -> & Hc)%IH. exists groups. split; [done|].
      by rewrite Hc, <- app_assoc.
Qed.

Lemma wrap_words_fit words lines current lines' current' :
  Forall (fun w => fits w) words ->
  Forall (fun l => fits l) lines -> fits (join " " current) ->
  wrap_words glyph_width words lines current = (lines', current') ->
  Forall (fun l => fits l) lines' /\ fits (join " " current').
Proof.
  intros Hw. revert lines current.
  induction Hw as [|word rest Hword Hw IH]; intros lines current Hl Hc; simpl.
  - by intros [= <- <-].
  - destruct (budget <? _) eqn:E.
    + apply IH; [|done]. rewrite removelast_last. apply Forall_app. split; [done|].
      by constructor.
    + apply IH; [done|]. by apply Z.ltb_ge in E.
Qed.

(** Either no line was closed and the last test passed, or a line was closed
    and a line is in progress. *)
Lemma wrap_words_count words lines current lines' current' :
  wrap_words glyph_width words lines current = (lines', current') ->
  (lines' = lines /\ current' = current ++ words /\ (words <> [] -> fits (join " " current')))
  \/ (length lines < length lines')%nat /\ current' <> [].
Proof.
  revert lines current. induction words as [|word rest IH]; intros lines current; simpl.
  - intros [= <- <-]. left. by rewrite app_nil_r.
  - destruct (budget <? _) eqn:E.
    + intros [(-> & -> & _)|[Hlen Hne]]%IH; right.
      * split; [|done]. rewrite length_app. simpl. lia.
      * split; [|done]. rewrite length_app in Hlen. simpl in Hlen. lia.
    + intros [(-> & -> & Hfit)|[Hlen Hne]]%IH; [left|by right].
      split; [done|]. split; [by rewrite <- app_assoc|]. intros _.
      destruct rest as [|w rest]; [|by apply Hfit].
      rewrite app_nil_r. by apply Z.ltb_ge in E.
Qed.

Lemma fits_empty : fits EmptyString.
Proof. unfold stringWidth, budget. simpl. lia. Qed.

Lemma wrap_text_groups text :
  exists groups,
    wrap_text glyph_width text = join " " <$> groups /\ List.concat groups = split text.
Proof.
  unfold wrap_text.
  destruct (wrap_words glyph_width (split text) [] []) as [lines current] eqn:E.
  destruct (wrap_words_groups _ _ _ _ _ E) as (groups & -> & Hc). simpl in *.
  destruct current as [|w current]; simpl.
  - exists groups. by rewrite app_nil_r in Hc.
  - exists (groups ++ [w :: current]). rewrite fmap_app, concat_app. simpl.
    by rewrite app_nil_r.
Qed.

Lemma wrap_text_words text :
  split (join " " (wrap_text glyph_width text)) = split text.
Proof.
  destruct (wrap_text_groups text) as (groups & -> & Hc).
  rewrite split_join, <- Hc. f_equal.
  assert (Hw : Forall (Forall (fun w => is_word w = true)) groups).
  { apply Forall_forall. intros g Hg. apply Forall_forall. intros w Hin.
    pose proof (split_words text) as Hall. rewrite <- Hc in Hall.
    rewrite Forall_forall in Hall. apply Hall.
    apply list_elem_of_In, in_concat. exists g. split; by apply list_elem_of_In. }
  clear Hc. induction Hw as [|g groups Hg Hw IH]; [done|].
  rewrite !fmap_cons. by rewrite split_join_words, IH.
Qed.

Lemma wrap_text_fits text :
  Forall (fun w => fits w) (split text) ->
  Forall (fun l => fits l) (wrap_text glyph_width text).
Proof.
  intros Hw. unfold wrap_text.
  destruct (wrap_words glyph_width (split text) [] []) as [lines current] eqn:E.
  destruct (wrap_words_fit (split text) [] [] lines current Hw ltac:(constructor)
              fits_empty E) as [Hl Hc].
  destruct current; simpl; [done|]. apply Forall_app. split; [done|]. by constructor.
Qed.

Lemma wrap_text_two_lines text :
  budget < width (join " " (split text)) ->
  (2 <= length (wrap_text glyph_width text))%nat.
Proof.
  intros Hover. unfold wrap_text.
  destruct (wrap_words glyph_width (split text) [] []) as [lines current] eqn:E.
  destruct (wrap_words_count _ _ _ _ _ E) as [(-> & -> & Hfit)|[Hlen Hne]].
  - exfalso. rewrite app_nil_l in Hfit. destruct (split text) as [|w ws] eqn:Es.
    + pose proof fits_empty. simpl in Hover. lia.
    + specialize (Hfit ltac:(done)). lia.
  - destruct current; [done|]. simpl in *. rewrite length_app. simpl. lia.
Qed.

End WrapFacts.

(** ** The claims about the store *)

Section Claims.
Local Open Scope nat_scope.




Lemma misses_rooms room data :
  misses (room_matches room) data ->
  Forall (fun e => e_room_number e <> room) (entry_of <$> List.filter has_data data).
Proof.
  intros Hm. induction Hm as [|c data Hc Hm IH]; simpl; [constructor|].
  destruct (has_data c); [|done]. rewrite fmap_cons. constructor; [|done].
  simpl. unfold room_matches in Hc. by apply String.eqb_neq.
Qed.

(** C5, as amended. A remove of a room that some row addresses succeeds and
    deletes the first such row only: the rows before it and the rows after it
    stay as they were and in their order, so the listing afterwards is the
    listing of the remaining rows.  When no later row is addressed by the same
    room number, no listed record has that room any more.  The sheet is one
    that the library has read from its file. *)
Theorem remove_deletes_first_match fs req hdr before target after :
  files fs !! store_path (rm_property_code req) = Some (hdr :: before ++ target :: after) ->
  as_loaded (hdr :: before ++ target :: after) ->
  4 <= length hdr ->
  misses (room_matches (rm_room_number req)) before ->
  room_matches (rm_room_number req) target = true ->
  (remove_work_order req fs).1
  = Return (Message "success"
              ("Work order for room " +:+ rm_room_number req +:+ " removed successfully"))
  /\ files (remove_work_order req fs).2 !! store_path (rm_property_code req)
     = Some (hdr :: before ++ after)
  /\ (get_work_orders (rm_property_code req) fs).1
     = Return (WorkOrdersList (entry_of <$> List.filter has_data (before ++ target :: after)))
  /\ (get_work_orders (rm_property_code req) (remove_work_order req fs).2).1
     = Return (WorkOrdersList (entry_of <$> List.filter has_data (before ++ after)))
  /\ (misses (room_matches (rm_room_number req)) after ->
      Forall (fun e => e_room_number e <> rm_room_number req)
             (entry_of <$> List.filter has_data (before ++ after))).
Proof.
  intros Hf Hl Hh Hm Ht.
  rewrite (remove_work_order_hit _ _ _ _ _ _ Hf Hm Ht). cbn [fst snd].
  assert (Hs : files (saved (store_path (rm_property_code req)) (hdr :: before ++ after) fs)
               !! store_path (rm_property_code req) = Some (hdr :: before ++ after)).
  { rewrite files_saved, decide_True by done. f_equal. by eapply as_loaded_delete. }
  split; [done|]. split; [done|]. split; [|split].
  - rewrite (get_work_orders_present _ _ _ Hf); [reflexivity|].
    rewrite max_column_cons. lia.
  - rewrite (get_work_orders_present _ _ _ Hs); [reflexivity|].
    rewrite max_column_cons. lia.
  - intros Ha. apply misses_rooms. by apply Forall_app.
Qed.

(** C5 on a remove of room 101 from the sample store. *)
Lemma remove_deletes_first_match_witness :
  (remove_work_order (mk_RemoveWorkOrder "NY198" "101") sample_fs).1
  = Return (Message "success" ("Work order for room " +:+ "101" +:+ " removed successfully"))
  /\ files (remove_work_order (mk_RemoveWorkOrder "NY198" "101") sample_fs).2
       !! store_path "NY198"
     = Some (header_row :: [] ++
             [[VStr "102"; VStr "Replace bulb"; VDatetime date_2025_03_01; VStr "Done";
               VStr "Yes"]])
  /\ (get_work_orders "NY198" sample_fs).1
     = Return (WorkOrdersList
                 (entry_of <$> List.filter has_data
                    ([] ++ [VStr "101"; VStr "Fix sink"; VDatetime date_2025_03_01;
                            VStr "Pending"]
                        :: [[VStr "102"; VStr "Replace bulb"; VDatetime date_2025_03_01;
                             VStr "Done"; VStr "Yes"]])))
  /\ (get_work_orders "NY198"
        (remove_work_order (mk_RemoveWorkOrder "NY198" "101") sample_fs).2).1
     = Return (WorkOrdersList
                 (entry_of <$> List.filter has_data
                    ([] ++ [[VStr "102"; VStr "Replace bulb"; VDatetime date_2025_03_01;
                             VStr "Done"; VStr "Yes"]])))
  /\ (misses (room_matches "101")
        [[VStr "102"; VStr "Replace bulb"; VDatetime date_2025_03_01; VStr "Done"; VStr "Yes"]] ->
      Forall (fun e => e_room_number e <> "101"%string)
             (entry_of <$> List.filter has_data
                ([] ++ [[VStr "102"; VStr "Replace bulb"; VDatetime date_2025_03_01;
                         VStr "Done"; VStr "Yes"]]))).
Proof.
  apply (remove_deletes_first_match sample_fs (mk_RemoveWorkOrder "NY198" "101") header_row []
           [VStr "101"; VStr "Fix sink"; VDatetime date_2025_03_01; VStr "Pending"]
           [[VStr "102"; VStr "Replace bulb"; VDatetime date_2025_03_01; VStr "Done";
             VStr "Yes"]]).
  - reflexivity.
  - reflexivity.
  - vm_compute. lia.
  - constructor.
  - reflexivity.
Defined.

(** C5, counterexample to the claim as stated: in a store with two records
    for room 101, a remove of 101 succeeds and the listing still has a record
    for room 101. *)
Lemma remove_leaves_second_record :
  (remove_work_order (mk_RemoveWorkOrder "NY198" "101") duplicate_fs).1
  = Return (Message "success" "Work order for room 101 removed successfully")
  /\ (get_work_orders "NY198"
        (remove_work_order (mk_RemoveWorkOrder "NY198" "101") duplicate_fs).2).1
     = Return (WorkOrdersList [mk_entry "101" "Replace bulb" "2025-03-01" "Pending" "No"]).
Proof. split; reflexivity. Qed.

(** C10. The scans of submit and remove return the first row below the header
    whose first cell, printed as a string, equals the room number of the
    request, and those of edit and update_status report "not found" exactly
    when no row does.  The comparison is equality of strings: the integer 101
    is addressed by "101", an empty cell by "None", and neither trailing
    whitespace nor another spelling of the number matches. *)
Theorem room_lookup_compares_printed_cell ws room :
  find_existing_row (iter_rows 2 ws) room
  = Return (first_match (room_matches room) (tail ws) ≫= fun i =>
              (fun cells => (2 + i, pad (max_column ws) cells)) <$> tail ws !! i)
  /\ find_row_to_delete (iter_rows 2 ws) room
     = Return ((fun i => 2 + i) <$> first_match (room_matches room) (tail ws))
  /\ (forall text d,
        edit_rows (iter_rows 2 ws) (VStr room) text d ws = Return (false, ws)
        <-> first_match (room_matches room) (tail ws) = None)
  /\ (forall st best,
        update_rows (iter_rows 2 ws) (VStr room) st best ws = Return (false, ws)
        <-> first_match (room_matches room) (tail ws) = None)
  /\ (forall cells, room_matches room cells = true <-> str (cell cells 0) = room)
  /\ room_matches "101" [VInt 101; VStr "Fix sink"] = true
  /\ room_matches "None" [VNone; VStr "Fix sink"] = true
  /\ room_matches "101" [VStr "101 "; VStr "Fix sink"] = false
  /\ room_matches "0101" [VInt 101; VStr "Fix sink"] = false
  /\ room_matches "101.0" [VInt 101; VStr "Fix sink"] = false.
Proof.
  rewrite iter_rows_2.
  split; [apply find_existing_row_is_first, max_column_pos|].
  split; [apply find_row_to_delete_is_first, max_column_pos|].
  split; [intros text d; apply (edit_rows_found _ _ _ (VStr room)), max_column_pos|].
  split; [intros st best; apply (update_rows_found _ _ _ (VStr room)), max_column_pos|].
  split; [intros cells; apply String.eqb_eq|].
  repeat split.
Qed.




Lemma appended_text_nonempty old text : old +:+ " / " +:+ text <> EmptyString.
Proof. by destruct old. Qed.

Lemma stored_value_appended old text :
  stored_value (VStr (old +:+ " / " +:+ text)) = VStr (old +:+ " / " +:+ text).
Proof.
  simpl. destruct (String.eqb_spec (old +:+ " / " +:+ text) EmptyString) as [E|]; [|done].
  by apply appended_text_nonempty in E.
Qed.

Lemma room_matches_assign room i v cells :
  i <> 0 -> room_matches room (assign i v cells) = room_matches room cells.
Proof. intros Hi. unfold room_matches. rewrite cell_assign. by rewrite decide_False. Qed.

(** C2, as amended. A pair of a submit whose room has a record, at any place
    in the request, with a text that the cell takes as it is: the loop body
    gives the first row that the room number addresses the text "old / new"
    (old being the printed form of the stored text) and the submitted date,
    and leaves every other cell of the row, the status and the best-room
    flag among them, and every other row as they were; the handler goes on
    with the pairs after it and saves the table once.  When no later pair
    names the room again, the saved row holds that text, and its other cells
    as they are read back. *)
Theorem submit_existing_room_appends
    fs wo d ws earlier room text later hdr before target after :
  length (split_on "," (room_numbers wo)) = length (split_on "," (work_orders wo)) ->
  strptime_ymd (completion_date wo) = Return d ->
  files fs !! store_path (property_code wo) = Some ws ->
  submitted_pairs wo = earlier ++ (room, text) :: later ->
  process_work_orders d ws earlier = Return (hdr :: before ++ target :: after) ->
  3 <= max_column (hdr :: before ++ target :: after) ->
  misses (room_matches room) before ->
  room_matches room target = true ->
  legal (str (cell target 1) +:+ " / " +:+ text) = true ->
  exists target',
    process_work_order d (hdr :: before ++ target :: after) (room, text)
      = Return (hdr :: before ++ target' :: after)
    /\ cell target' 1 = VStr (str (cell target 1) +:+ " / " +:+ text)
    /\ cell target' 2 = VDatetime d
    /\ (forall i, i <> 1 -> i <> 2 -> cell target' i = cell target i)
    /\ create_work_order wo fs =
         match process_work_orders d (hdr :: before ++ target' :: after) later with
         | Return final => (Return saved_message, saved (store_path (property_code wo)) final fs)
         | Raise e => (Raise (HTTPException 500 (str_exn e)), fs)
         end
    /\ (forall final,
          process_work_orders d (hdr :: before ++ target' :: after) later = Return final ->
          Forall (fun item => item.1 <> room) later ->
          exists sheet row,
            files (create_work_order wo fs).2 !! store_path (property_code wo) = Some sheet
            /\ sheet !! S (length before) = Some row
            /\ cell row 1 = VStr (str (cell target 1) +:+ " / " +:+ text)
            /\ cell row 2 = stored_value (VDatetime d)
            /\ (forall i, i <> 1 -> i <> 2 -> cell row i = stored_value (cell target i))).
Proof.
  intros Hlen Hd Hf Hp He Hw Hm Ht Hl.
  set (new := (str (cell target 1) +:+ " / " +:+ text)%string) in *.
  exists (assign 2 (VDatetime d) (assign 1 (VStr new) target)).
  assert (Hstep : process_work_order d (hdr :: before ++ target :: after) (room, text)
                  = Return (hdr :: before ++
                              assign 2 (VDatetime d) (assign 1 (VStr new) target) :: after)).
  { rewrite process_work_order_existing by done. fold new. by rewrite check_string_legal. }
  assert (Hcreate : create_work_order wo fs =
            match process_work_orders d
                    (hdr :: before ++ assign 2 (VDatetime d) (assign 1 (VStr new) target) :: after)
                    later with
            | Return final =>
                (Return saved_message, saved (store_path (property_code wo)) final fs)
            | Raise e => (Raise (HTTPException 500 (str_exn e)), fs)
            end).
  { rewrite (create_work_order_present _ _ _ _ Hlen Hd Hf), Hp, process_work_orders_app, He.
    cbn [rbind process_work_orders]. rewrite Hstep. done. }
  split; [done|]. split; [by rewrite !cell_assign|]. split; [by rewrite !cell_assign|].
  split; [intros i H1 H2; rewrite !cell_assign; by repeat case_decide|].
  split; [done|].
  intros final Hfin Hlater. rewrite Hcreate, Hfin. cbn [snd].
  exists (stored final), (stored_row (assign 2 (VDatetime d) (assign 1 (VStr new) target))).
  split; [by rewrite files_saved, decide_True|]. split.
  - unfold stored. rewrite list_lookup_fmap.
    erewrite (process_work_orders_keeps_row _ _ _ _ (S (length before)) _ room Hfin);
      [done| |by rewrite !room_matches_assign|done].
    change ((before ++ assign 2 (VDatetime d) (assign 1 (VStr new) target) :: after)
              !! length before = Some (assign 2 (VDatetime d) (assign 1 (VStr new) target))).
    by apply list_lookup_middle.
  - rewrite !cell_stored_row, !cell_assign. cbn [decide].
    split; [apply stored_value_appended|]. split; [done|].
    intros i H1 H2. rewrite cell_stored_row, !cell_assign. by repeat case_decide.
Qed.

(** C2 on the second pair of a request of three: room 102 of the sample
    store, after a pair that creates room 103 and before one for room 101. *)
Lemma submit_existing_room_appends_witness :
  exists target',
    process_work_order date_2025_04_15 (header_row :: [row_101] ++ row_102 :: [row_103])
      ("102"%string, "Check fuse"%string)
      = Return (header_row :: [row_101] ++ target' :: [row_103])
    /\ cell target' 1 = VStr (str (cell row_102 1) +:+ " / " +:+ "Check fuse")
    /\ cell target' 2 = VDatetime date_2025_04_15
    /\ (forall i, i <> 1 -> i <> 2 -> cell target' i = cell row_102 i)
    /\ create_work_order three_pair_request sample_fs =
         match process_work_orders date_2025_04_15
                 (header_row :: [row_101] ++ target' :: [row_103])
                 [("101"%string, "Tighten tap"%string)] with
         | Return final => (Return saved_message, saved (store_path "NY198") final sample_fs)
         | Raise e => (Raise (HTTPException 500 (str_exn e)), sample_fs)
         end
    /\ (forall final,
          process_work_orders date_2025_04_15
            (header_row :: [row_101] ++ target' :: [row_103])
            [("101"%string, "Tighten tap"%string)] = Return final ->
          Forall (fun item => item.1 <> "102"%string) [("101"%string, "Tighten tap"%string)] ->
          exists sheet row,
            files (create_work_order three_pair_request sample_fs).2 !! store_path "NY198"
              = Some sheet
            /\ sheet !! S (length [row_101]) = Some row
            /\ cell row 1 = VStr (str (cell row_102 1) +:+ " / " +:+ "Check fuse")
            /\ cell row 2 = stored_value (VDatetime date_2025_04_15)
            /\ (forall i, i <> 1 -> i <> 2 -> cell row i = stored_value (cell row_102 i))).
Proof.
  apply (submit_existing_room_appends sample_fs three_pair_request date_2025_04_15 sample_store
           [("103"%string, "Paint"%string)] "102" "Check fuse"
           [("101"%string, "Tighten tap"%string)] header_row [row_101] row_102 [row_103]).
  - reflexivity.
  - reflexivity.
  - reflexivity.
  - reflexivity.
  - reflexivity.
  - vm_compute. lia.
  - by constructor.
  - reflexivity.
  - reflexivity.
Defined.

(** C2, counterexample to the claim as stated: a pair for room 102 of the
    sample store whose text holds a control character is refused by the
    cell, the request is answered with an error and the record keeps its
    text; a pair whose text makes the record longer than a cell can hold
    leaves the text cut at 32767 characters; and the date 1899-12-30 is read
    back from the file as a time of day. *)
Lemma submit_refused_text_keeps_record :
  status_code_of
    (create_work_order (mk_WorkOrder "NY198" "102" control_text "2025-04-15") sample_fs).1
  = 500%Z
  /\ (create_work_order (mk_WorkOrder "NY198" "102" control_text "2025-04-15") sample_fs).2
     = sample_fs
  /\ N.of_nat (String.length (str (cell row_101_long 1) +:+ " / " +:+ "b")) = 32770%N
  /\ match files (create_work_order (mk_WorkOrder "NY198" "101" "b" "2025-04-15")
                    long_text_fs).2 !! store_path "NY198" ≫= (.!! 1) with
     | Some row => N.of_nat (String.length (str (cell row 1)))
     | None => 0%N
     end = 32767%N
  /\ (files (create_work_order (mk_WorkOrder "NY198" "102" "Paint" "1899-12-30")
               sample_fs).2 !! store_path "NY198" ≫= (.!! 2))
     = Some [VStr "102"; VStr "Replace bulb / Paint"; VTime 0 0 0; VStr "Done"; VStr "Yes"].
Proof.
  split; [reflexivity|]. split; [reflexivity|]. repeat split; vm_compute; reflexivity.
Qed.

















End Claims.
(** ** The claims about the report and the error classes *)

Section MoreClaims.

(** C3, as amended. For every text: when its words joined by single spaces
    are wider than the budget, at least two lines are produced; when none of
    its words is wider than the budget by itself, every line is within the
    budget; and the lines joined by single spaces split into the words of
    the text. *)
Theorem wrap_text_within_budget (glyph_width : ascii -> Z) (text : string) :
  (budget < stringWidth glyph_width (join " " (split text)) 10 ->
   (2 <= length (wrap_text glyph_width text))%nat)
  /\ (Forall (fun word => stringWidth glyph_width word 10 <= budget) (split text) ->
      Forall (fun line => stringWidth glyph_width line 10 <= budget)
             (wrap_text glyph_width text))
  /\ split (join " " (wrap_text glyph_width text)) = split text.
Proof.
  split; [|split].
  - apply wrap_text_two_lines.
  - apply wrap_text_fits.
  - apply wrap_text_words.
Qed.

(** C3 on a text of thirteen words that is wider than the budget. *)
Lemma wrap_text_within_budget_witness :
  Forall (fun word => stringWidth helvetica word 10 <= budget) (split long_text)
  /\ budget < stringWidth helvetica (join " " (split long_text)) 10
  /\ (2 <= length (wrap_text helvetica long_text))%nat
  /\ Forall (fun line => stringWidth helvetica line 10 <= budget)
            (wrap_text helvetica long_text)
  /\ split (join " " (wrap_text helvetica long_text)) = split long_text.
Proof.
  assert (Hwords : Forall (fun word => stringWidth helvetica word 10 <= budget)
                          (split long_text)).
  { eapply bool_decide_unpack. vm_compute. exact I. }
  assert (Hover : budget < stringWidth helvetica (join " " (split long_text)) 10).
  { reflexivity. }
  destruct (wrap_text_within_budget helvetica long_text) as (Htwo & Hfit & Hsame).
  split; [exact Hwords|]. split; [exact Hover|]. split; [exact (Htwo Hover)|].
  split; [exact (Hfit Hwords)|exact Hsame].
Defined.

(** C3, counterexample to the claim as stated: a single word wider than the
    budget gives an empty line and a line wider than the budget; and a text
    made wider than the budget by trailing spaces gives one line only. *)
Lemma wrap_text_line_over_budget :
  budget < stringWidth helvetica long_word 10
  /\ wrap_text helvetica long_word = [EmptyString; long_word]
  /\ budget < stringWidth helvetica padded_text 10
  /\ wrap_text helvetica padded_text = ["a"]%string.
Proof. repeat split. Qed.

(** Every handler answers 200 or 500: the handler-wide clause turns each
    exception raised in its body, the client errors included, into a 500. *)
Lemma except_Exception_status {A} (body : M A) fs :
  status_code_of (except_Exception body fs).1 = 200%Z
  \/ status_code_of (except_Exception body fs).1 = 500%Z.
Proof.
  unfold except_Exception, try_except, raise.
  destruct (body fs) as [[a|e] fs']; simpl; auto.
Qed.

(** C1, evaluated on the code: the requests that the claim names are
    answered with status 500, the intended 400 or 404 being part of the
    detail text only. *)
Theorem client_errors_are_answered_with_500 :
  (create_work_order (mk_WorkOrder "NY198" "101,102" "Fix sink,Replace bulb,Paint" "2025-03-01")
     empty_fs).1
  = Raise (HTTPException 500 "400: Number of rooms and work orders must match")
  /\ (create_work_order (mk_WorkOrder "NY198" "101" "Fix sink" "13-2025-01") empty_fs).1
     = Raise (HTTPException 500 "400: Invalid date format. Use YYYY-MM-DD")
  /\ (remove_work_order (mk_RemoveWorkOrder "NY198" "101") empty_fs).1
     = Raise (HTTPException 500 "404: No work orders found for this property")
  /\ (remove_work_order (mk_RemoveWorkOrder "NY198" "999") sample_fs).1
     = Raise (HTTPException 500 "404: No work order found for room 999")
  /\ (edit_work_order edit_request empty_fs).1
     = Raise (HTTPException 500 "404: Property not found")
  /\ (edit_work_order (<["room_number"%string := VStr "999"]> edit_request) sample_fs).1
     = Raise (HTTPException 500 "404: Room not found")
  /\ (update_room_status status_request empty_fs).1
     = Raise (HTTPException 500 "404: Property not found")
  /\ (update_room_status (<["room_number"%string := VStr "999"]> status_request) old_fs).1
     = Raise (HTTPException 500 "404: Room not found")
  /\ (generate_report helvetica report_request_time "NY198" empty_fs).1
     = Raise (HTTPException 500 "404: No work orders found for this property").
Proof. repeat split. Qed.

End MoreClaims.

(** ** The outcomes of a request *)

Section OutcomeFacts.
Local Open Scope nat_scope.
Implicit Types (ws : worksheet) (cells : list value) (v : value).

(** A sheet whose rows below the header split at the first addressed row. *)
Lemma first_match_sheet m ws i :
  first_match m (tail ws) = Some i ->
  exists hdr before target after,
    ws = hdr :: before ++ target :: after /\ length before = i /\
    misses m before /\ m target = true.
Proof.
  intros (before & target & after & Hd & Hi & Hm & Ht)%first_match_split.
  destruct ws as [|hdr data]; [by destruct before|]. simpl in Hd. subst data.
  by exists hdr, before, target, after.
Qed.

Lemma truthy_data_get (data : json_object) key :
  truthy (data_get data key) = true -> data !! key = Some (data_get data key).
Proof. unfold data_get. by destruct (data !! key). Qed.

(** A submit answers with an error and leaves the file system as it was, or
    answers with an error after it has created the store with its header
    row, or answers with a message and saves the processed table. *)
Lemma create_work_order_outcome wo fs :
  (exists e, create_work_order wo fs = (Raise (HTTPException 500 (str_exn e)), fs))
  \/ (exists e,
        files fs !! store_path (property_code wo) = None /\
        create_work_order wo fs
        = (Raise (HTTPException 500 (str_exn e)),
           saved (store_path (property_code wo)) [header_row] fs))
  \/ (exists d ws',
        length (split_on "," (room_numbers wo)) = length (split_on "," (work_orders wo)) /\
        strptime_ymd (completion_date wo) = Return d /\
        process_work_orders d (default [header_row] (files fs !! store_path (property_code wo)))
          (submitted_pairs wo) = Return ws' /\
        create_work_order wo fs =
          (Return saved_message,
           saved (store_path (property_code wo)) ws'
                 match files fs !! store_path (property_code wo) with
                 | Some _ => fs
                 | None => saved (store_path (property_code wo)) [header_row] fs
                 end)).
Proof.
  destruct (decide (length (split_on "," (room_numbers wo))
                    = length (split_on "," (work_orders wo)))) as [Hlen|Hlen].
  - destruct (strptime_ymd (completion_date wo)) as [d|e] eqn:Hd.
    + destruct (files fs !! store_path (property_code wo)) as [ws|] eqn:Hf.
      * rewrite (create_work_order_present _ _ _ _ Hlen Hd Hf). cbn [default from_option id].
        destruct (process_work_orders d ws (submitted_pairs wo)) as [ws'|e] eqn:Hp.
        -- right. right. by exists d, ws'.
        -- left. by exists e.
      * destruct (decide (dirname (store_path (property_code wo)) ∈ dirs fs)) as [Hdir|Hdir].
        -- rewrite (create_work_order_absent _ _ _ Hlen Hd Hf Hdir).
           cbn [default from_option id].
           destruct (process_work_orders d [header_row] (submitted_pairs wo))
             as [ws'|e] eqn:Hp.
           ++ right. right. by exists d, ws'.
           ++ right. left. by exists e.
        -- left. rewrite (create_work_order_no_directory _ _ _ Hlen Hd Hf Hdir).
           by exists (FileNotFoundError
                        ("[Errno 2] No such file or directory: "
                           +:+ repr_str (store_path (property_code wo)))).
    + left. unfold create_work_order, except_Exception, try_except, bind, lift, raise.
      rewrite !length_fmap, Hlen, Nat.eqb_refl, Hd. cbn [negb].
      destruct e; eauto.
  - left. unfold create_work_order, except_Exception, try_except, raise.
    rewrite !length_fmap. apply Nat.eqb_neq in Hlen. rewrite Hlen. cbn [negb]. eauto.
Qed.

Lemma remove_work_order_outcome req fs :
  (exists e, remove_work_order req fs = (Raise (HTTPException 500 (str_exn e)), fs))
  \/ (exists hdr before target after,
        files fs !! store_path (rm_property_code req) = Some (hdr :: before ++ target :: after) /\
        misses (room_matches (rm_room_number req)) before /\
        room_matches (rm_room_number req) target = true /\
        remove_work_order req fs =
          (Return (Message "success"
                     ("Work order for room " +:+ rm_room_number req +:+ " removed successfully")),
           saved (store_path (rm_property_code req)) (hdr :: before ++ after) fs)).
Proof.
  destruct (files fs !! store_path (rm_property_code req)) as [ws|] eqn:Hf.
  - destruct (first_match (room_matches (rm_room_number req)) (tail ws)) as [i|] eqn:E.
    + right. apply first_match_sheet in E as (hdr & before & target & after & -> & _ & Hm & Ht).
      exists hdr, before, target, after. repeat split; try done.
      by apply (remove_work_order_hit _ _ _ _ target).
    + left. unfold remove_work_order, except_Exception, try_except, bind, lift, raise.
      rewrite (path_exists_present _ _ _ Hf). reduce.
      rewrite (load_workbook_present _ _ _ Hf).
      rewrite iter_rows_2, find_row_to_delete_is_first by apply max_column_pos.
      rewrite E. reduce. eauto.
  - left. unfold remove_work_order, except_Exception, try_except, bind, raise.
    rewrite (path_exists_absent _ _ Hf). reduce. eauto.
Qed.

Lemma edit_work_order_outcome data fs :
  (exists e, edit_work_order data fs = (Raise (HTTPException 500 (str_exn e)), fs))
  \/ (exists d hdr before target after text',
        forallb truthy [data_get data "property_code"; data_get data "room_number";
                        data_get data "work_order"; data_get data "completion_date"] = true /\
        strptime (data_get data "completion_date") = Return d /\
        files fs !! store_path (str (data_get data "property_code"))
          = Some (hdr :: before ++ target :: after) /\
        3 <= max_column (hdr :: before ++ target :: after) /\
        misses (room_matches_json (data_get data "room_number")) before /\
        room_matches_json (data_get data "room_number") target = true /\
        bind_value (data_get data "work_order") = Return text' /\
        edit_work_order data fs =
          (Return (Message "success" "Work order updated successfully"),
           saved (store_path (str (data_get data "property_code")))
                 (hdr :: before ++ assign 2 (VDatetime d) (assign 1 text' target) :: after)
                 fs)).
Proof.
  destruct (forallb truthy [data_get data "property_code"; data_get data "room_number";
                            data_get data "work_order"; data_get data "completion_date"])
    eqn:Hall.
  2: { left. unfold edit_work_order, except_Exception, try_except, raise.
       rewrite Hall. reduce. eauto. }
  destruct (strptime (data_get data "completion_date")) as [d|e] eqn:Hd.
  2: { left. unfold edit_work_order, except_Exception, try_except, bind, lift, raise.
       rewrite Hall, Hd. reduce. destruct e; eauto. }
  destruct (files fs !! store_path (str (data_get data "property_code"))) as [ws|] eqn:Hf.
  2: { left. unfold edit_work_order, except_Exception, try_except, bind, lift, raise.
       rewrite Hall, Hd. reduce. rewrite (path_exists_absent _ _ Hf). reduce. eauto. }
  destruct (first_match (room_matches_json (data_get data "room_number")) (tail ws))
    as [i|] eqn:E.
  - apply first_match_sheet in E as (hdr & before & target & after & -> & _ & Hm & Ht).
    destruct (decide (3 <= max_column (hdr :: before ++ target :: after))) as [Hw|Hw].
    + rewrite (edit_work_order_at _ _ _ _ _ _ _ Hall Hd Hf Hw Hm Ht).
      destruct (bind_value (data_get data "work_order")) as [text'|e] eqn:Hb.
      * right. by exists d, hdr, before, target, after, text'.
      * left. eauto.
    + left. by eapply edit_work_order_narrow.
  - left. apply first_match_None in E.
    unfold edit_work_order, except_Exception, try_except, bind, lift, raise.
    rewrite Hall, Hd. reduce. rewrite (path_exists_present _ _ _ Hf). reduce.
    rewrite (load_workbook_present _ _ _ Hf). rewrite iter_rows_2.
    rewrite (edit_rows_miss _ _ _ _ _ _ _ (max_column_pos _) E). reduce. eauto.
Qed.

Lemma update_room_status_outcome data fs :
  (exists e, update_room_status data fs = (Raise (HTTPException 500 (str_exn e)), fs))
  \/ (exists hdr before target after st' best',
        forallb truthy [data_get data "property_code"; data_get data "room_number";
                        data_get data "status"] = true /\
        files fs !! store_path (str (data_get data "property_code"))
          = Some (hdr :: before ++ target :: after) /\
        4 <= max_column (hdr :: before ++ target :: after) /\
        misses (room_matches_json (data_get data "room_number")) before /\
        room_matches_json (data_get data "room_number") target = true /\
        bind_value (data_get data "status") = Return st' /\
        bind_value (data_get_default data "best_room" (VStr "No")) = Return best' /\
        update_room_status data fs =
          (Return (Message "success" "Room status updated successfully"),
           saved (store_path (str (data_get data "property_code")))
                 (hdr :: before ++ assign 4 best' (assign 3 st' target) :: after) fs)).
Proof.
  destruct (forallb truthy [data_get data "property_code"; data_get data "room_number";
                            data_get data "status"]) eqn:Hall.
  2: { left. unfold update_room_status, except_Exception, try_except, raise.
       rewrite Hall. reduce. eauto. }
  destruct (files fs !! store_path (str (data_get data "property_code"))) as [ws|] eqn:Hf.
  2: { left. unfold update_room_status, except_Exception, try_except, bind, lift, raise.
       rewrite Hall. reduce. rewrite (path_exists_absent _ _ Hf). reduce. eauto. }
  destruct (first_match (room_matches_json (data_get data "room_number")) (tail ws))
    as [i|] eqn:E.
  - apply first_match_sheet in E as (hdr & before & target & after & -> & _ & Hm & Ht).
    destruct (decide (4 <= max_column (hdr :: before ++ target :: after))) as [Hw|Hw].
    + rewrite (update_room_status_at _ _ _ _ _ _ Hall Hf Hw Hm Ht).
      destruct (bind_value (data_get data "status")) as [st'|e] eqn:Hs; [|left; eauto].
      destruct (bind_value (data_get_default data "best_room" (VStr "No")))
        as [best'|e] eqn:Hb; [|left; eauto].
      right. by exists hdr, before, target, after, st', best'.
    + left. by eapply update_room_status_narrow.
  - left. apply first_match_None in E.
    unfold update_room_status, except_Exception, try_except, bind, lift, raise.
    rewrite Hall. reduce. rewrite (path_exists_present _ _ _ Hf). reduce.
    rewrite (load_workbook_present _ _ _ Hf). rewrite iter_rows_2.
    rewrite (update_rows_miss _ _ _ _ _ _ _ (max_column_pos _) E). reduce. eauto.
Qed.

End OutcomeFacts.
(** ** What every request keeps *)

Section RequestFacts.
Local Open Scope nat_scope.
Implicit Types (ws : worksheet) (cells : list value) (v : value).

Lemma get_work_orders_outcome code fs :
  exists r, get_work_orders code fs = (r, fs).
Proof.
  unfold get_work_orders, except_Exception, try_except, bind, lift, raise, ret.
  destruct (files fs !! store_path code) as [ws|] eqn:Hf.
  - rewrite (path_exists_present _ _ _ Hf). reduce.
    rewrite (load_workbook_present _ _ _ Hf).
    destruct (collect_work_orders (iter_rows 2 ws)); eauto.
  - rewrite (path_exists_absent _ _ Hf). reduce. eauto.
Qed.

Lemma generate_report_outcome glyph_width now code fs :
  (exists e, generate_report glyph_width now code fs
             = (Raise (HTTPException 500 (str_exn e)), fs))
  \/ (exists ws ops,
        files fs !! store_path code = Some ws /\
        generate_report glyph_width now code fs
        = (Return (FileResponse (report_path code) "application/pdf"
                     ("inline; filename=" +:+ code +:+ "_maintenance_report.pdf")),
           mk_fs (dirs fs) (files fs) (<[report_path code := ops]> (reports fs)) (saves fs))).
Proof.
  unfold generate_report, except_Exception, try_except, bind, lift, raise, ret, canvas_save.
  destruct (files fs !! store_path code) as [ws|] eqn:Hf.
  - rewrite (path_exists_present _ _ _ Hf). reduce.
    rewrite (load_workbook_present _ _ _ Hf).
    destruct (draw_rows _ _ _ _) as [ops|e]; [right|left]; eauto.
  - rewrite (path_exists_absent _ _ Hf). reduce. eauto.
Qed.

(** X1. Whatever the request and the stores, each of the six handlers answers
    with status 200 or with status 500; no handler ever answers 400 or 404. *)
Theorem handlers_answer_200_or_500 glyph_width now fs wo rm code data :
  ok_or_500 (create_work_order wo fs).1
  /\ ok_or_500 (remove_work_order rm fs).1
  /\ ok_or_500 (get_work_orders code fs).1
  /\ ok_or_500 (edit_work_order data fs).1
  /\ ok_or_500 (update_room_status data fs).1
  /\ ok_or_500 (generate_report glyph_width now code fs).1.
Proof. repeat split; apply except_Exception_status. Qed.



(** X3. Reading never writes a store: listing leaves the file system as it
    was, and a report leaves the stores and the save log as they were and
    touches no report of another property. *)
Theorem reading_changes_no_store glyph_width now code fs :
  (get_work_orders code fs).2 = fs
  /\ files (generate_report glyph_width now code fs).2 = files fs
  /\ saves (generate_report glyph_width now code fs).2 = saves fs
  /\ (forall p, p <> report_path code ->
        reports (generate_report glyph_width now code fs).2 !! p = reports fs !! p).
Proof.
  split; [|split; [|split]].
  - by destruct (get_work_orders_outcome code fs) as [r ->].
  - by destruct (generate_report_outcome glyph_width now code fs)
      as [[e ->]|(ws & ops & _ & ->)].
  - by destruct (generate_report_outcome glyph_width now code fs)
      as [[e ->]|(ws & ops & _ & ->)].
  - intros p Hp. destruct (generate_report_outcome glyph_width now code fs)
      as [[e ->]|(ws & ops & _ & ->)]; [done|]. cbn [snd reports].
    by rewrite lookup_insert_ne.
Qed.

(** X4. A submit, remove, edit or status update for one property never
    changes the store of another property, for property codes that hold no
    [/] and so name files of the upload directory itself. *)
Theorem other_stores_are_untouched fs code other :
  no_slash code = true -> no_slash other = true -> other <> code ->
  (forall wo, property_code wo = code ->
     files (create_work_order wo fs).2 !! store_path other = files fs !! store_path other)
  /\ (forall rm, rm_property_code rm = code ->
        files (remove_work_order rm fs).2 !! store_path other = files fs !! store_path other)
  /\ (forall data, str (data_get data "property_code") = code ->
        files (edit_work_order data fs).2 !! store_path other = files fs !! store_path other)
  /\ (forall data, str (data_get data "property_code") = code ->
        files (update_room_status data fs).2 !! store_path other
        = files fs !! store_path other).
Proof.
  intros Hc Ho Hne.
  assert (Hp : store_path code <> store_path other).
  { intros E. apply Hne. symmetry. by apply store_path_inj. }
  split; [|split; [|split]].
  - intros wo <-.
    destruct (create_work_order_outcome wo fs)
      as [[e' ->]|[(e' & Hf & ->)|(d & ws' & _ & _ & _ & ->)]]; [done| |]; cbn [snd].
    + by rewrite files_saved, decide_False.
    + rewrite files_saved, decide_False by done.
      destruct (files fs !! store_path (property_code wo)); [done|].
      by rewrite files_saved, decide_False.
  - intros rm <-.
    destruct (remove_work_order_outcome rm fs)
      as [[e' ->]|(hdr & before & target & after & _ & _ & _ & ->)]; [done|].
    cbn [snd]. by rewrite files_saved, decide_False.
  - intros data <-.
    destruct (edit_work_order_outcome data fs)
      as [[e' ->]|(d & hdr & before & target & after & text' & _ & _ & _ & _ & _ & _ & _ & ->)];
      [done|]. cbn [snd]. by rewrite files_saved, decide_False.
  - intros data <-.
    destruct (update_room_status_outcome data fs)
      as [[e' ->]|(hdr & before & target & after & st' & best' & _ & _ & _ & _ & _ & _ & _ & ->)];
      [done|]. cbn [snd]. by rewrite files_saved, decide_False.
Qed.

Lemma reading_changes_no_store_witness :
  reports (generate_report helvetica report_request_time "NY198" sample_fs).2
    !! report_path "NY345"
  = reports sample_fs !! report_path "NY345".
Proof.
  apply (proj2 (proj2 (proj2 (reading_changes_no_store helvetica report_request_time
                                "NY198" sample_fs)))).
  discriminate.
Defined.

Lemma other_stores_are_untouched_witness :
  files (create_work_order (mk_WorkOrder "NY345" "101" "Fix sink" "2025-03-01") sample_fs).2
    !! store_path "NY198"
  = files sample_fs !! store_path "NY198".
Proof.
  apply (proj1 (other_stores_are_untouched sample_fs "NY345" "NY198" eq_refl eq_refl
                  ltac:(discriminate))
           (mk_WorkOrder "NY345" "101" "Fix sink" "2025-03-01")).
  reflexivity.
Defined.

End RequestFacts.

(** ** Invariants of the stores *)

Section InvariantFacts.
Local Open Scope nat_scope.
Implicit Types (ws : worksheet) (cells : list value) (v : value).



















End InvariantFacts.
(** ** How requests compose *)

Section CompositionFacts.
Local Open Scope nat_scope.
Implicit Types (ws : worksheet) (cells : list value) (v : value).























Lemma truthy_not_None v : truthy v = true -> is_None v = false.
Proof. by destruct v. Qed.











Lemma Exists_first_match m data :
  Exists (fun cells => m cells = true) data <-> first_match m data <> None.
Proof.
  split.
  - intros Hex Hnone. apply first_match_None in Hnone.
    apply Exists_exists in Hex as (c & Hin & Hc).
    unfold misses in Hnone. rewrite Forall_forall in Hnone.
    specialize (Hnone c Hin). congruence.
  - destruct (first_match m data) as [i|] eqn:E; [|done]. intros _.
    apply first_match_split in E as (before & target & after & -> & _ & _ & Ht).
    apply Exists_app. right. by left.
Qed.

Lemma Exists_middle m before target after :
  m target = true -> Exists (fun cells => m cells = true) (before ++ target :: after).
Proof. intros Ht. apply Exists_app. right. by left. Qed.








(** X13. A remove is answered with 200 exactly when the store file exists
    and some row below the header is addressed by the room number. *)
Theorem remove_succeeds_iff_room_is_present fs rm :
  status_code_of (remove_work_order rm fs).1 = 200%Z
  <-> exists ws,
        files fs !! store_path (rm_property_code rm) = Some ws
        /\ Exists (fun cells => room_matches (rm_room_number rm) cells = true) (tail ws).
Proof.
  split.
  - destruct (remove_work_order_outcome rm fs)
      as [[e ->]|(hdr & before & target & after & Hf & _ & Ht & _)]; [done|].
    intros _. eexists. split; [done|]. by apply Exists_middle.
  - intros (ws & Hf & Hex). apply Exists_first_match in Hex.
    destruct (first_match (room_matches (rm_room_number rm)) (tail ws)) as [i|] eqn:E; [|done].
    apply first_match_sheet in E as (hdr & before & target & after & -> & _ & Hm & Ht).
    by rewrite (remove_work_order_hit _ _ _ _ _ _ Hf Hm Ht).
Qed.

Lemma remove_succeeds_iff_room_is_present_witness :
  status_code_of (remove_work_order (mk_RemoveWorkOrder "NY198" "102") sample_fs).1 = 200%Z.
Proof.
  apply (proj2 (remove_succeeds_iff_room_is_present sample_fs
                  (mk_RemoveWorkOrder "NY198" "102"))).
  exists sample_store. split; [reflexivity|].
  apply Exists_cons_tl, Exists_cons_hd. reflexivity.
Defined.





End CompositionFacts.
(** ** What the report draws *)

Section ReportFacts.
Variable glyph_width : ascii -> Z.

Lemma drawn_at_app x ops1 ops2 : drawn_at x (ops1 ++ ops2) = drawn_at x ops1 ++ drawn_at x ops2.
Proof. apply omap_app. Qed.

Lemma positions_at_app x ops1 ops2 :
  positions_at x (ops1 ++ ops2) = positions_at x ops1 ++ positions_at x ops2.
Proof. apply omap_app. Qed.

Lemma drawn_at_lines x y (lines : list string) :
  drawn_at x (imap (fun i line => DrawString 130 (y - Z.of_nat i * 12) line) lines)
  = if 130 =? x then lines else [].
Proof.
  unfold drawn_at. revert y. induction lines as [|l lines IH]; intros y.
  - by destruct (130 =? x).
  - rewrite imap_cons. cbn [omap list_omap].
    assert (Hshift : imap ((fun i line => DrawString 130 (y - Z.of_nat i * 12) line) ∘ S) lines
                     = imap (fun i line => DrawString 130 ((y - 12) - Z.of_nat i * 12) line) lines).
    { apply imap_ext. intros i line _. simpl. f_equal. lia. }
    rewrite Hshift. change (list_omap ?f ?l) with (omap f l). rewrite IH.
    by destruct (130 =? x).
Qed.

Lemma positions_at_lines_30 y (lines : list string) :
  positions_at 30 (imap (fun i line => DrawString 130 (y - Z.of_nat i * 12) line) lines) = [].
Proof.
  unfold positions_at. revert y. induction lines as [|l lines IH]; intros y; [done|].
  rewrite imap_cons. cbn [omap list_omap Z.eqb Pos.eqb].
  assert (Hshift : imap ((fun i line => DrawString 130 (y - Z.of_nat i * 12) line) ∘ S) lines
                   = imap (fun i line => DrawString 130 ((y - 12) - Z.of_nat i * 12) line) lines).
  { apply imap_ext. intros i line _. simpl. f_equal. lia. }
  rewrite Hshift. apply IH.
Qed.

(** What the loop over the rows draws in each of the four columns. *)
Lemma draw_rows_columns n w data y ops :
  (4 <= w)%nat -> y <= page_height - 50 ->
  exists ops',
    draw_rows glyph_width (rows_from n w data) y ops = Return (ops ++ ops')
    /\ drawn_at 30 ops' = (fun cells => str (cell cells 0)) <$> data
    /\ drawn_at 130 ops'
       = List.concat ((fun cells => wrap_text glyph_width (str (cell cells 1))) <$> data)
    /\ drawn_at 380 ops' = (fun cells => format_cell_date (cell cells 2)) <$> data
    /\ drawn_at 530 ops' = (fun cells => str (cell cells 3)) <$> data
    /\ Forall (fun y' => 50 <= y' <= page_height - 50) (positions_at 30 ops').
Proof.
  intros Hw. revert n y ops. induction data as [|c data IH]; intros n y ops Hy.
  - exists []. simpl. rewrite app_nil_r. repeat split; constructor.
  - cbn [rows_from draw_rows fst snd]. rewrite !getitem_pad by lia. cbn [rbind].
    destruct (y <? 50) eqn:E;
      match goal with |- context [draw_rows _ _ ?y' ?o'] =>
        destruct (IH (S n) y' o') as (ops' & Hrun & H30 & H130 & H380 & H530 & Hpos);
          [unfold page_height in *; lia|]
      end;
      (eexists; split; [rewrite Hrun; rewrite <- !app_assoc; reflexivity|]);
      rewrite !drawn_at_app, !drawn_at_lines, H30, H130, H380, H530;
      (repeat split; try done);
      rewrite !positions_at_app, positions_at_lines_30; cbn;
      (constructor; [|done]); unfold page_height in *; lia.
Qed.


(** X17. In a report, every text of the first column (title, time stamp,
    header and the room of each row) is drawn at a height between the bottom
    margin 50 and the top margin, page height minus 50. *)
Theorem report_rows_start_within_margins now code fs ws ops :
  files fs !! store_path code = Some ws ->
  (4 <= max_column ws)%nat ->
  reports (generate_report glyph_width now code fs).2 !! report_path code = Some ops ->
  Forall (fun y => 50 <= y <= page_height - 50) (positions_at 30 ops).
Proof.
  intros Hf Hw.
  unfold generate_report, except_Exception, try_except, bind, lift, raise, ret, canvas_save.
  rewrite (path_exists_present _ _ _ Hf). reduce.
  rewrite (load_workbook_present _ _ _ Hf). rewrite iter_rows_2.
  match goal with |- context [draw_rows _ _ ?y ?o] =>
    destruct (draw_rows_columns 2 (max_column ws) (tail ws) y o Hw)
      as (ops' & -> & _ & _ & _ & _ & Hpos); [done|] end.
  cbn [snd reports]. rewrite lookup_insert_eq. intros [= <-].
  unfold positions_at in *. cbn [omap list_omap Z.eqb Pos.eqb].
  repeat (constructor; [unfold page_height; lia|]). exact Hpos.
Qed.

End ReportFacts.


Lemma report_rows_start_within_margins_witness :
  Forall (fun y => 50 <= y <= page_height - 50)
    (positions_at 30
       [SetFont "Helvetica-Bold" 18;
        DrawString 30 562 "Maintenance Report for Comfort Inn & Suites";
        SetFont "Helvetica" 12; DrawString 30 542 "Generated on: 2025-04-15 09:30:00";
        DrawLine 30 527 762 527; SetFont "Helvetica-Bold" 12; DrawString 30 492 "Room";
        DrawString 130 492 "Work Order"; DrawString 380 492 "Completion Date";
        DrawString 530 492 "Status"; DrawLine 30 477 762 477; SetFont "Helvetica" 10;
        DrawString 30 452 "101"; DrawString 130 452 "Fix sink";
        DrawString 380 452 "2025-03-01"; DrawString 530 452 "Pending";
        DrawString 30 432 "102"; DrawString 130 432 "Replace bulb";
        DrawString 380 432 "2025-03-01"; DrawString 530 432 "Done"]).
Proof.
  apply (report_rows_start_within_margins helvetica report_request_time "NY198" sample_fs
           sample_store).
  - reflexivity.
  - vm_compute. lia.
  - reflexivity.
Defined.

(** ** Lines of a wrapped text *)

Section WrapMore.
Variable glyph_width : ascii -> Z.

Lemma glyph_sum_app s t :
  glyph_sum glyph_width (s +:+ t) = glyph_sum glyph_width s + glyph_sum glyph_width t.
Proof. induction s as [|c s IH]; simpl; [done|]. rewrite IH. lia. Qed.

Lemma glyph_sum_nonneg s :
  (forall c, 0 <= glyph_width c) -> 0 <= glyph_sum glyph_width s.
Proof.
  intros Hpos. induction s as [|c s IH]; simpl; [done|]. specialize (Hpos c). lia.
Qed.

(** Joining more words never makes the line narrower. *)
Lemma glyph_sum_join_app a b :
  (forall c, 0 <= glyph_width c) ->
  glyph_sum glyph_width (join " " a) <= glyph_sum glyph_width (join " " (a ++ b)).
Proof.
  intros Hpos. induction a as [|x [|y a] IH].
  - simpl. by apply glyph_sum_nonneg.
  - destruct b as [|z b]; [done|].
    change (join " " ([x] ++ z :: b)) with (x +:+ " " +:+ join " " (z :: b)).
    rewrite !glyph_sum_app. simpl.
    pose proof (glyph_sum_nonneg (join " " (z :: b)) Hpos).
    pose proof (glyph_sum_nonneg " " Hpos). simpl in *. lia.
  - change (join " " ((x :: y :: a) ++ b)) with (x +:+ " " +:+ join " " ((y :: a) ++ b)).
    change (join " " (x :: y :: a)) with (x +:+ " " +:+ join " " (y :: a)).
    rewrite !glyph_sum_app. lia.
Qed.

Lemma wrap_words_short words lines current :
  (forall c, 0 <= glyph_width c) ->
  stringWidth glyph_width (join " " (current ++ words)) 10 <= budget ->
  wrap_words glyph_width words lines current = (lines, current ++ words).
Proof.
  intros Hpos. revert current. induction words as [|word rest IH]; intros current Hfit; simpl.
  - by rewrite app_nil_r.
  - assert (Hle : stringWidth glyph_width (join " " (current ++ [word])) 10 <= budget).
    { pose proof (glyph_sum_join_app (current ++ [word]) rest Hpos) as Hmono.
      rewrite <- app_assoc in Hmono. unfold stringWidth in *. simpl in Hmono. lia. }
    apply Z.ltb_ge in Hle. rewrite Hle. rewrite IH; [by rewrite <- app_assoc|].
    by rewrite <- app_assoc.
Qed.

(** X18. With glyph widths that are not negative, a text whose words joined
    by single spaces fit the budget is not wrapped: it gives that one line,
    and no line at all when it has no word. *)
Theorem short_text_is_one_line text :
  (forall c, 0 <= glyph_width c) ->
  stringWidth glyph_width (join " " (split text)) 10 <= budget ->
  wrap_text glyph_width text
  = match split text with
    | [] => []
    | _ => [join " " (split text)]
    end.
Proof.
  intros Hpos Hfit. unfold wrap_text.
  rewrite (wrap_words_short _ [] [] Hpos Hfit). cbn [app].
  by destruct (split text).
Qed.

Lemma join_word_nonempty w ws :
  is_word w = true -> join " " (w :: ws) <> EmptyString.
Proof.
  intros [Hne _]%andb_true_iff. destruct w as [|c w]; [done|].
  destruct ws; done.
Qed.

Lemma wrap_words_no_blank words lines current lines' current' :
  Forall (fun w => stringWidth glyph_width w 10 <= budget) words ->
  Forall (fun w => is_word w = true) words ->
  Forall (fun l => l <> EmptyString) lines ->
  Forall (fun w => is_word w = true) current ->
  wrap_words glyph_width words lines current = (lines', current') ->
  Forall (fun l => l <> EmptyString) lines' /\ Forall (fun w => is_word w = true) current'.
Proof.
  intros Hfit. revert lines current.
  induction Hfit as [|word rest Hword Hfit IH]; intros lines current Hw Hl Hc; simpl.
  - by intros [= <- <-].
  - apply Forall_cons in Hw as [Hw1 Hw]. destruct (budget <? _) eqn:E.
    + apply IH; [done| |by constructor]. rewrite removelast_last.
      apply Forall_app. split; [done|]. constructor; [|done].
      destruct Hc as [|c current Hc1 Hc]; [|by apply join_word_nonempty].
      apply Z.ltb_lt in E. simpl in E. lia.
    + apply IH; [done|done|]. apply Forall_app. split; [done|by constructor].
Qed.

(** X19. When every word of the text fits the budget by itself, no line of
    the wrapped text is empty. *)
Theorem no_blank_line_when_words_fit text :
  Forall (fun w => stringWidth glyph_width w 10 <= budget) (split text) ->
  Forall (fun line => line <> EmptyString) (wrap_text glyph_width text).
Proof.
  intros Hfit. unfold wrap_text.
  destruct (wrap_words glyph_width (split text) [] []) as [lines current] eqn:E.
  destruct (wrap_words_no_blank _ _ _ _ _ Hfit (split_words text) ltac:(constructor)
              ltac:(constructor) E) as [Hl Hc].
  destruct current as [|w current]; [done|]. cbn.
  apply Forall_app. split; [done|]. constructor; [|done].
  apply Forall_cons in Hc as [Hw _]. by apply join_word_nonempty.
Qed.

End WrapMore.

Lemma helvetica_nonneg c : 0 <= helvetica c.
Proof.
  unfold helvetica. generalize (nat_of_ascii c - 32)%nat. intros n.
  do 95 (destruct n as [|n]; [cbn; lia|]). by destruct n.
Qed.

Lemma short_text_is_one_line_witness :
  wrap_text helvetica "  Fix   the sink " = ["Fix the sink"%string].
Proof.
  apply (short_text_is_one_line helvetica "  Fix   the sink " helvetica_nonneg).
  vm_compute. discriminate.
Defined.

Lemma no_blank_line_when_words_fit_witness :
  Forall (fun line => line <> EmptyString) (wrap_text helvetica long_text).
Proof.
  apply (no_blank_line_when_words_fit helvetica long_text).
  eapply bool_decide_unpack. vm_compute. exact I.
Defined.

(** ** Dates of a request *)

Section DateFacts.

Lemma digit_range c n : digit c = Some n -> 0 <= n <= 9.
Proof.
  unfold digit. destruct (_ && _) eqn:E; [|done]. intros [= <-].
  apply andb_true_iff in E as [H1 H2]. lia.
Qed.

Lemma parse_year_range s y rest : parse_year s = Some (y, rest) -> 0 <= y <= 9999.
Proof.
  unfold parse_year. destruct s as [|a [|b [|c [|e r]]]]; try done.
  destruct (digit a) as [na|] eqn:Ea; [|done].
  destruct (digit b) as [nb|] eqn:Eb; [|done].
  destruct (digit c) as [nc|] eqn:Ec; [|done].
  destruct (digit e) as [ne|] eqn:Ee; [|done].
  intros [= <- _].
  apply digit_range in Ea, Eb, Ec, Ee. lia.
Qed.

Ltac date_bounds :=
  repeat match goal with
         | H : (_ <=? _) = true |- _ => apply Z.leb_le in H
         | H : (_ <=? _) = false |- _ => apply Z.leb_gt in H
         | H : digit _ = Some _ |- _ => apply digit_range in H
         end.

Lemma parse_month_dash_range s m rest : parse_month_dash s = Some (m, rest) -> 1 <= m <= 12.
Proof.
  unfold parse_month_dash. intros H.
  repeat (case_match; try done); simplify_eq; date_bounds; lia.
Qed.

Lemma parse_day_range s d rest : parse_day s = Some (d, rest) -> 1 <= d <= 31.
Proof.
  unfold parse_day. intros H.
  repeat (case_match; try done); simplify_eq; date_bounds; lia.
Qed.

(** X20. A date that strptime accepts is a day of the calendar: year 1 to
    9999, month 1 to 12, day 1 to the length of that month (29 for February
    in leap years only), at midnight. *)
Theorem strptime_returns_a_calendar_day s d :
  strptime_ymd s = Return d ->
  1 <= year d <= 9999 /\ 1 <= month d <= 12
  /\ 1 <= day d <= days_in_month (year d) (month d)
  /\ hour d = 0 /\ minute d = 0 /\ second d = 0.
Proof.
  unfold strptime_ymd.
  destruct (parse_year s) as [[y s1]|] eqn:Ey; [|done].
  destruct (parse_lit "-" s1) as [s2|]; [|done].
  destruct (parse_month_dash s2) as [[m s3]|] eqn:Em; [|done].
  destruct (parse_day s3) as [[dd [|c s4]]|] eqn:Ed; [|done|done].
  destruct (y <? 1) eqn:E1; [done|].
  destruct (days_in_month y m <? dd) eqn:E2; [done|].
  intros [= <-]. cbn [year month day hour minute second].
  apply parse_year_range in Ey. apply parse_month_dash_range in Em.
  apply parse_day_range in Ed. apply Z.ltb_ge in E1, E2. lia.
Qed.

Lemma strptime_returns_a_calendar_day_witness :
  1 <= year (mk_datetime 2024 2 29 0 0 0) <= 9999
  /\ 1 <= month (mk_datetime 2024 2 29 0 0 0) <= 12
  /\ 1 <= day (mk_datetime 2024 2 29 0 0 0)
     <= days_in_month (year (mk_datetime 2024 2 29 0 0 0)) (month (mk_datetime 2024 2 29 0 0 0))
  /\ hour (mk_datetime 2024 2 29 0 0 0) = 0 /\ minute (mk_datetime 2024 2 29 0 0 0) = 0
  /\ second (mk_datetime 2024 2 29 0 0 0) = 0.
Proof.
  apply (strptime_returns_a_calendar_day "2024-2-29" (mk_datetime 2024 2 29 0 0 0)).
  reflexivity.
Defined.

Lemma in_Z_range lo n (z : Z) :
  Z.of_nat lo <= z < Z.of_nat lo + Z.of_nat n -> In z (map Z.of_nat (seq lo n)).
Proof.
  intros H. replace z with (Z.of_nat (Z.to_nat z)) by lia.
  apply in_map, in_seq. lia.
Qed.

Lemma years_read_back :
  forallb year_reads_back (map Z.of_nat (seq (Z.to_nat 1000) (Z.to_nat 9000))) = true.
Proof. vm_compute. reflexivity. Qed.

Lemma parse_year_printed y rest :
  1000 <= y <= 9999 -> parse_year (str_int y +:+ rest) = Some (y, rest).
Proof.
  intros Hy. pose proof years_read_back as Hall. rewrite forallb_forall in Hall.
  specialize (Hall y (in_Z_range (Z.to_nat 1000) (Z.to_nat 9000) y ltac:(lia))).
  unfold year_reads_back in Hall.
  destruct (str_int y) as [|a [|b [|c [|e [|f s]]]]]; try done.
  - cbn in *. repeat (case_match; try done). simplify_eq. apply Z.eqb_eq in Hall.
    unfold parse_year. simpl. rewrite H2, H3, H4, H5. by subst.
  - cbn in *. repeat (case_match; try done).
Qed.

Lemma parse_month_zero_pad m rest :
  1 <= m <= 12 -> parse_month_dash (zero_pad 2 m +:+ String "-" rest) = Some (m, rest).
Proof.
  intros Hm. pose proof (in_Z_range 1 12 m ltac:(lia)) as Hin. cbv in Hin.
  repeat (destruct Hin as [<-|Hin]; [reflexivity|]). done.
Qed.

Lemma parse_day_zero_pad d :
  1 <= d <= 31 -> parse_day (zero_pad 2 d) = Some (d, EmptyString).
Proof.
  intros Hd. pose proof (in_Z_range 1 31 d ltac:(lia)) as Hin. cbv in Hin.
  repeat (destruct Hin as [<-|Hin]; [reflexivity|]). done.
Qed.

Lemma strptime_strftime y m d :
  1000 <= y <= 9999 -> 1 <= m <= 12 -> 1 <= d <= days_in_month y m ->
  strptime_ymd (strftime_ymd (mk_datetime y m d 0 0 0)) = Return (mk_datetime y m d 0 0 0).
Proof.
  intros Hy Hm Hd.
  assert (Hd31 : 1 <= d <= 31).
  { unfold days_in_month in Hd. repeat case_match; lia. }
  unfold strptime_ymd, strftime_ymd. cbn [year month day].
  rewrite parse_year_printed by done.
  change ("-" +:+ zero_pad 2 m +:+ "-" +:+ zero_pad 2 d)
    with (String "-" (zero_pad 2 m +:+ String "-" (zero_pad 2 d))).
  cbn [parse_lit Ascii.eqb Bool.eqb]. cbv iota.
  rewrite parse_month_zero_pad, parse_day_zero_pad by done.
  assert ((y <? 1) = false) as -> by lia.
  assert ((days_in_month y m <? d) = false) as -> by lia.
  done.
Qed.

Lemma string_length_app s t :
  String.length (s +:+ t) = (String.length s + String.length t)%nat.
Proof. induction s as [|c s IH]; simpl; [done|]. by rewrite IH. Qed.

Lemma length_printed_year y : 1000 <= y <= 9999 -> String.length (str_int y) = 4%nat.
Proof.
  intros Hy. pose proof years_read_back as Hall. rewrite forallb_forall in Hall.
  specialize (Hall y (in_Z_range (Z.to_nat 1000) (Z.to_nat 9000) y ltac:(lia))).
  unfold year_reads_back in Hall.
  destruct (str_int y) as [|a [|b [|c [|e [|f s]]]]]; try done.
  cbn in Hall. repeat (case_match; try done).
Qed.

Lemma length_zero_pad_2 n : 1 <= n <= 31 -> String.length (zero_pad 2 n) = 2%nat.
Proof.
  intros Hn. pose proof (in_Z_range 1 31 n ltac:(lia)) as Hin. cbv in Hin.
  repeat (destruct Hin as [<-|Hin]; [reflexivity|]). done.
Qed.

(** X21. The date of an accepted request from the year 1000 on, formatted
    as the listing shows it, has ten characters and is accepted again by
    strptime as the same date. *)
Theorem listed_date_reads_back s d :
  strptime_ymd s = Return d ->
  1000 <= year d ->
  strptime_ymd (strftime_ymd d) = Return d
  /\ String.length (strftime_ymd d) = 10%nat.
Proof.
  unfold strptime_ymd at 1.
  destruct (parse_year s) as [[y s1]|] eqn:Ey; [|done].
  destruct (parse_lit "-" s1) as [s2|]; [|done].
  destruct (parse_month_dash s2) as [[m s3]|] eqn:Em; [|done].
  destruct (parse_day s3) as [[dd [|c s4]]|] eqn:Ed; [|done|done].
  destruct (y <? 1) eqn:E1; [done|].
  destruct (days_in_month y m <? dd) eqn:E2; [done|].
  intros [= <-]. cbn [year]. intros Hy.
  apply parse_year_range in Ey. apply parse_month_dash_range in Em.
  apply parse_day_range in Ed. apply Z.ltb_ge in E1, E2.
  split; [apply strptime_strftime; lia|].
  unfold strftime_ymd. cbn [year month day].
  rewrite !string_length_app, length_printed_year, !length_zero_pad_2 by lia. done.
Qed.

Lemma listed_date_reads_back_witness :
  strptime_ymd (strftime_ymd (mk_datetime 2025 3 1 0 0 0)) = Return (mk_datetime 2025 3 1 0 0 0)
  /\ String.length (strftime_ymd (mk_datetime 2025 3 1 0 0 0)) = 10%nat.
Proof.
  apply (listed_date_reads_back "2025-3-1" (mk_datetime 2025 3 1 0 0 0)).
  - reflexivity.
  - simpl. lia.
Defined.

End DateFacts.
(** ** Edge cases of the requests *)

Section EdgeFacts.
Local Open Scope nat_scope.
Implicit Types (ws : worksheet) (cells : list value) (v : value).

Lemma room_matches_json_string room cells :
  room_matches_json room cells = true -> exists s, room = VStr s.
Proof. unfold room_matches_json, str_eq. destruct room; try done. eauto. Qed.

(** X22. An edit or a status update whose room number is not a JSON string
    (a number, null, or absent) finds no row: it is answered with 500 and
    the file system is unchanged, whatever the store holds. *)
Theorem room_number_that_is_no_string_is_never_found fs data :
  (forall s, data_get data "room_number" <> VStr s) ->
  status_code_of (edit_work_order data fs).1 = 500%Z
  /\ (edit_work_order data fs).2 = fs
  /\ status_code_of (update_room_status data fs).1 = 500%Z
  /\ (update_room_status data fs).2 = fs.
Proof.
  intros Hroom.
  assert (Hno : forall target, room_matches_json (data_get data "room_number") target = true
                               -> False).
  { intros target [s Hs]%room_matches_json_string. by apply (Hroom s). }
  destruct (edit_work_order_outcome data fs)
    as [[e ->]|(d & hdr & before & target & after & text' & _ & _ & _ & _ & _ & Ht & _)];
    [|by destruct (Hno target)].
  destruct (update_room_status_outcome data fs)
    as [[e' ->]|(hdr & before & target & after & st' & best' & _ & _ & _ & _ & Ht & _)];
    [|by destruct (Hno target)].
  done.
Qed.

Lemma room_number_that_is_no_string_is_never_found_witness :
  status_code_of (edit_work_order numeric_room_request old_fs).1 = 500%Z
  /\ (edit_work_order numeric_room_request old_fs).2 = old_fs
  /\ status_code_of (update_room_status numeric_room_request old_fs).1 = 500%Z
  /\ (update_room_status numeric_room_request old_fs).2 = old_fs.
Proof.
  apply (room_number_that_is_no_string_is_never_found old_fs numeric_room_request).
  intros s. discriminate.
Defined.





End EdgeFacts.
